(** * Shopping-list API: validation, authorization and response envelope

    A shallow embedding of the two Express servers of the repository
    (the mock server and the MongoDB-backed server) and of the Mongoose
    schema [models/ShoppingList.js], followed by the properties of the
    request pipeline.

    Conventions.
    - A JavaScript value is a term of [value]; an object is a finite map
      from property names to values (property order is irrelevant for
      every property below).
    - A JavaScript string is a [string]; each character stands for one
      UTF-16 code unit below 256.
    - A request body is the object parsed by [express.json()]; a body that
      is a JSON array has none of the properties the handlers read and
      behaves as the empty object. The handlers are given first on a
      request whose body was parsed; a request without a body, whose
      [req.body] is undefined, is treated in the section on requests
      without a parsed body.
    - A handler is a function from the request (and, for the database
      server, the collection) to the status code and the object handed to
      [res.json]. Properties whose value is [undefined] are kept in that
      object; JSON serialization drops them afterwards. *)

From Stdlib Require Import ZArith QArith Ascii String.
From stdpp Require Import gmap strings list fin_maps pretty.

Set Warnings "-register-all".

Local Open Scope Z_scope.
Local Open Scope string_scope.

(** ** JavaScript values *)

(** A JavaScript number: NaN, an infinity or a finite (rational) value. *)
Inductive number : Type :=
| NaN
| Infinity (negative : bool)
| Finite (q : Q).

Inductive value : Type :=
| VUndefined
| VNull
| VBool (b : bool)
| VNum (n : number)
| VStr (s : string)
| VArr (l : list value)
| VObj (m : gmap string value).

Abbreviation obj := (gmap string value).

Definition num_of_Z (z : Z) : value := VNum (Finite (inject_Z z)).

(** [Number.isNaN]. *)
Definition isNaN (n : number) : bool :=
  match n with NaN => true | _ => false end.

(** ToBoolean: the values for which [!v] is false. *)
Definition truthy (v : value) : bool :=
  match v with
  | VUndefined | VNull => false
  | VBool b => b
  | VNum NaN => false
  | VNum (Infinity _) => true
  | VNum (Finite q) => negb (Qnum q =? 0)%Z
  | VStr s => negb (String.eqb s "")
  | VArr _ | VObj _ => true
  end.

(** [typeof v === "string"]. *)
Definition is_string (v : value) : bool :=
  match v with VStr _ => true | _ => false end.

(** [v !== undefined]. *)
Definition is_defined (v : value) : bool :=
  match v with VUndefined => false | _ => true end.

(** Property read [o.k] on an object: [undefined] when the key is absent. *)
Definition prop (o : obj) (k : string) : value := default VUndefined (o !! k).

(** [a || b] on values. *)
Definition js_or (a b : value) : value := if truthy a then a else b.

(** [a ?? b] on values. *)
Definition nullish (a b : value) : value :=
  match a with VUndefined | VNull => b | _ => a end.

(** [Object.keys(o).length > 0]. *)
Definition has_keys (o : obj) : bool := bool_decide (0 < size o)%nat.

(** [arr.includes(v)] for an array of string literals. *)
Definition includes (arr : list string) (v : value) : bool :=
  match v with
  | VStr s => bool_decide (s ∈ arr)
  | _ => false
  end.

(** *** String.prototype.trim *)

(** White space and line terminators among the code units below 256:
    TAB, LF, VT, FF, CR, SPACE and NBSP. *)
Definition is_white_space (c : ascii) : bool :=
  let n := N_of_ascii c in
  ((9 <=? n) && (n <=? 13) || (n =? 32) || (n =? 160))%N.

Fixpoint trimStart (s : string) : string :=
  match s with
  | String c s' => if is_white_space c then trimStart s' else s
  | EmptyString => EmptyString
  end.

Fixpoint trimEnd (s : string) : string :=
  match s with
  | String c s' =>
      match trimEnd s' with
      | EmptyString => if is_white_space c then EmptyString else String c EmptyString
      | t => String c t
      end
  | EmptyString => EmptyString
  end.

Definition trim (s : string) : string := trimEnd (trimStart s).

(** ** Responses *)

Record response : Type := Response { status : Z; body : obj }.

(** [res.json(b)]: the status defaults to 200. *)
Definition json (b : obj) : response := Response 200 b.

(** [res.status(c).json(b)]. *)
Definition status_json (c : Z) (b : obj) : response := Response c b.

Definition is_2xx (c : Z) : bool := ((200 <=? c) && (c <? 300))%Z.

(** [v.trim()]. Every call in the source is guarded by
    [typeof v === "string"], so only the first branch is ever reached. *)
Definition trim_value (v : value) : string :=
  match v with VStr s => trim s | _ => "" end.

(** The test [!v || typeof v !== "string" || v.trim() === ""] shared by the
    name checks of the mock server. *)
Definition blank_or_not_string (v : value) : bool :=
  negb (truthy v) || negb (is_string v) || String.eqb (trim_value v) "".

(** ** The mock server *)

Module Mock.

Definition PORT : Z := 3001.

Module PROFILES.
Definition AUTHORITIES := "Authorities".
Definition USER := "User".
Definition OWNER := "ShoppingListOwner".
Definition MEMBER := "ShoppingListMember".
End PROFILES.

Definition AWID := "shoppingListApp".

Record User : Type := { uuIdentity : string; profiles : list string }.

Record Request : Type := { user : User; req_body : obj; req_query : obj }.

(** The authentication middleware: the same user for every request. *)
Definition authenticate (req : Request) : Request :=
  {| user := {| uuIdentity := "uu5:1234-5678";
                profiles := [PROFILES.USER; PROFILES.OWNER] |};
     req_body := req_body req;
     req_query := req_query req |}.

Definition hasAnyProfile (req : Request) (requiredProfiles : list string) : bool :=
  existsb (fun p => bool_decide (p ∈ profiles (user req))) requiredProfiles.

(** [buildError(code, message, paramMap = {})]; [code] is not used. *)
Definition buildError (code message : string) (paramMap : option obj) : value :=
  VObj (list_to_map
          [("type", VStr "error");
           ("message", VStr message);
           ("paramMap", VObj (default ∅ paramMap))]).

(** [buildResponse(dtoOut = {}, errorMap = {})]. *)
Definition buildResponse (dtoOut errorMap : option obj) : obj :=
  <["uuAppErrorMap" := VObj (default ∅ errorMap)]> (default ∅ dtoOut).

(** POST /shoppingList/create; [now] is the value of [Date.now()]. *)
Definition create (now : Z) (req : Request) : response :=
  let dtoIn := req_body req in
  let errorMap : obj := ∅ in
  if negb (hasAnyProfile req [PROFILES.USER; PROFILES.AUTHORITIES]) then
    let errorMap :=
      <["shoppingList/create/unauthorized" :=
          buildError "shoppingList/create/unauthorized"
            "User is not authorized to create a shopping list." None]> errorMap in
    status_json 403 (buildResponse (Some ∅) (Some errorMap))
  else if blank_or_not_string (prop dtoIn "name") then
    let errorMap :=
      <["shoppingList/create/invalidName" :=
          buildError "shoppingList/create/invalidName"
            "name is required and must be a non-empty string."
            (Some {["name" := prop dtoIn "name"]})]> errorMap in
    status_json 400 (buildResponse (Some ∅) (Some errorMap))
  else
    let dtoOut : obj :=
      list_to_map
        [("awid", VStr AWID);
         ("id", VStr ("list-" +:+ pretty now));
         ("name", VStr (trim_value (prop dtoIn "name")));
         ("state", VStr "active");
         ("ownerUuIdentity", VStr (uuIdentity (user req)));
         ("members", VArr []);
         ("items", VArr [])] in
    json (buildResponse (Some dtoOut) None).

(** GET /shoppingList/get?id=... *)
Definition get (req : Request) : response :=
  let dtoIn := req_query req in
  let errorMap : obj := ∅ in
  if negb (truthy (prop dtoIn "id")) then
    let errorMap :=
      <["shoppingList/get/invalidId" :=
          buildError "shoppingList/get/invalidId" "id is required."
            (Some {["id" := prop dtoIn "id"]})]> errorMap in
    status_json 400 (buildResponse (Some ∅) (Some errorMap))
  else
    let dtoOut : obj :=
      list_to_map
        [("awid", VStr AWID);
         ("id", prop dtoIn "id");
         ("name", VStr "Example list");
         ("state", VStr "active");
         ("ownerUuIdentity", VStr "uu5:1234-5678");
         ("members",
           VArr [VObj (list_to_map [("uuIdentity", VStr "uu5:1234-5678");
                                    ("role", VStr "owner")]);
                 VObj (list_to_map [("uuIdentity", VStr "uu5:8765-4321");
                                    ("role", VStr "member")])]);
         ("items",
           VArr [VObj (list_to_map [("id", VStr "i1"); ("name", VStr "Milk");
                                    ("quantity", num_of_Z 2); ("unit", VStr "pcs");
                                    ("resolved", VBool false)]);
                 VObj (list_to_map [("id", VStr "i2"); ("name", VStr "Bread");
                                    ("quantity", num_of_Z 1); ("unit", VStr "pcs");
                                    ("resolved", VBool true)])])] in
    json (buildResponse (Some dtoOut) None).

(** GET /shoppingList/list?pageIndex=&pageSize=; the conversion [Number(v)]
    of the language is a parameter of the handler. *)
Definition list (Number : value -> number) (req : Request) : response :=
  let dtoIn := req_query req in
  let errorMap : obj := ∅ in
  let pageIndex := Number (nullish (prop dtoIn "pageIndex") (num_of_Z 0)) in
  let pageSize := Number (nullish (prop dtoIn "pageSize") (num_of_Z 50)) in
  if isNaN pageIndex || isNaN pageSize then
    let errorMap :=
      <["shoppingList/list/invalidPageInfo" :=
          buildError "shoppingList/list/invalidPageInfo"
            "pageIndex and pageSize must be numbers."
            (Some (list_to_map [("pageIndex", prop dtoIn "pageIndex");
                                ("pageSize", prop dtoIn "pageSize")]))]> errorMap in
    status_json 400 (buildResponse (Some ∅) (Some errorMap))
  else
    let dtoOut : obj :=
      list_to_map
        [("itemList",
           VArr [VObj (list_to_map [("id", VStr "list-1");
                                    ("name", VStr "Saturday Groceries");
                                    ("state", VStr "active");
                                    ("ownerUuIdentity", VStr "uu5:1234-5678");
                                    ("itemCount", num_of_Z 5)]);
                 VObj (list_to_map [("id", VStr "list-2");
                                    ("name", VStr "Hiking Trip");
                                    ("state", VStr "active");
                                    ("ownerUuIdentity", VStr "uu5:4444-1111");
                                    ("itemCount", num_of_Z 3)])]);
         ("pageInfo",
           VObj (list_to_map [("pageIndex", VNum pageIndex);
                              ("pageSize", VNum pageSize);
                              ("total", num_of_Z 2)]))] in
    json (buildResponse (Some dtoOut) None).

(** The validation block of POST /shoppingList/update: the error map after
    both checks have run. *)
Definition update_checks (dtoIn : obj) (errorMap : obj) : obj :=
  let errorMap :=
    if negb (truthy (prop dtoIn "id")) then
      <["shoppingList/update/invalidId" :=
          buildError "shoppingList/update/invalidId" "id is required."
            (Some {["id" := prop dtoIn "id"]})]> errorMap
    else errorMap in
  let errorMap :=
    if blank_or_not_string (prop dtoIn "name") then
      <["shoppingList/update/invalidName" :=
          buildError "shoppingList/update/invalidName"
            "name is required and must be a non-empty string."
            (Some {["name" := prop dtoIn "name"]})]> errorMap
    else errorMap in
  errorMap.

(** POST /shoppingList/update *)
Definition update (req : Request) : response :=
  let dtoIn := req_body req in
  let errorMap : obj := ∅ in
  if negb (hasAnyProfile req [PROFILES.OWNER; PROFILES.AUTHORITIES]) then
    let errorMap :=
      <["shoppingList/update/unauthorized" :=
          buildError "shoppingList/update/unauthorized"
            "User is not authorized to update the shopping list." None]> errorMap in
    status_json 403 (buildResponse (Some ∅) (Some errorMap))
  else
    let errorMap := update_checks dtoIn errorMap in
    if has_keys errorMap then
      status_json 400 (buildResponse (Some ∅) (Some errorMap))
    else
      let dtoOut : obj :=
        list_to_map
          [("awid", VStr AWID);
           ("id", prop dtoIn "id");
           ("name", VStr (trim_value (prop dtoIn "name")));
           ("state", VStr "active");
           ("ownerUuIdentity", VStr (uuIdentity (user req)))] in
      json (buildResponse (Some dtoOut) None).

(** POST /shoppingList/delete *)
Definition delete (req : Request) : response :=
  let dtoIn := req_body req in
  let errorMap : obj := ∅ in
  if negb (hasAnyProfile req [PROFILES.OWNER; PROFILES.AUTHORITIES]) then
    let errorMap :=
      <["shoppingList/delete/unauthorized" :=
          buildError "shoppingList/delete/unauthorized"
            "User is not authorized to delete the shopping list." None]> errorMap in
    status_json 403 (buildResponse (Some ∅) (Some errorMap))
  else if negb (truthy (prop dtoIn "id")) then
    let errorMap :=
      <["shoppingList/delete/invalidId" :=
          buildError "shoppingList/delete/invalidId" "id is required."
            (Some {["id" := prop dtoIn "id"]})]> errorMap in
    status_json 400 (buildResponse (Some ∅) (Some errorMap))
  else
    let dtoOut : obj :=
      list_to_map
        [("awid", VStr AWID); ("id", prop dtoIn "id"); ("deleted", VBool true)] in
    json (buildResponse (Some dtoOut) None).

(** POST /shoppingList/addMember *)
Definition addMember (req : Request) : response :=
  let dtoIn := req_body req in
  let errorMap : obj := ∅ in
  if negb (hasAnyProfile req [PROFILES.OWNER; PROFILES.AUTHORITIES]) then
    let errorMap :=
      <["shoppingList/addMember/unauthorized" :=
          buildError "shoppingList/addMember/unauthorized"
            "User is not authorized to add members." None]> errorMap in
    status_json 403 (buildResponse (Some ∅) (Some errorMap))
  else
    let errorMap :=
      if negb (truthy (prop dtoIn "listId")) then
        <["shoppingList/addMember/invalidListId" :=
            buildError "shoppingList/addMember/invalidListId" "listId is required."
              (Some {["listId" := prop dtoIn "listId"]})]> errorMap
      else errorMap in
    let errorMap :=
      if negb (truthy (prop dtoIn "uuIdentity")) || negb (is_string (prop dtoIn "uuIdentity")) then
        <["shoppingList/addMember/invalidUuIdentity" :=
            buildError "shoppingList/addMember/invalidUuIdentity"
              "uuIdentity is required and must be a string."
              (Some {["uuIdentity" := prop dtoIn "uuIdentity"]})]> errorMap
      else errorMap in
    if has_keys errorMap then
      status_json 400 (buildResponse (Some ∅) (Some errorMap))
    else
      let dtoOut : obj :=
        list_to_map
          [("awid", VStr AWID);
           ("listId", prop dtoIn "listId");
           ("member",
             VObj (list_to_map
                     [("uuIdentity", prop dtoIn "uuIdentity");
                      ("role", js_or (prop dtoIn "role") (VStr "member"))]))] in
      json (buildResponse (Some dtoOut) None).

(** POST /shoppingList/removeMember *)
Definition removeMember (req : Request) : response :=
  let dtoIn := req_body req in
  let errorMap : obj := ∅ in
  if negb (hasAnyProfile req [PROFILES.OWNER; PROFILES.AUTHORITIES]) then
    let errorMap :=
      <["shoppingList/removeMember/unauthorized" :=
          buildError "shoppingList/removeMember/unauthorized"
            "User is not authorized to remove members." None]> errorMap in
    status_json 403 (buildResponse (Some ∅) (Some errorMap))
  else
    let errorMap :=
      if negb (truthy (prop dtoIn "listId")) then
        <["shoppingList/removeMember/invalidListId" :=
            buildError "shoppingList/removeMember/invalidListId" "listId is required."
              (Some {["listId" := prop dtoIn "listId"]})]> errorMap
      else errorMap in
    let errorMap :=
      if negb (truthy (prop dtoIn "uuIdentity")) then
        <["shoppingList/removeMember/invalidUuIdentity" :=
            buildError "shoppingList/removeMember/invalidUuIdentity"
              "uuIdentity is required."
              (Some {["uuIdentity" := prop dtoIn "uuIdentity"]})]> errorMap
      else errorMap in
    if has_keys errorMap then
      status_json 400 (buildResponse (Some ∅) (Some errorMap))
    else
      let dtoOut : obj :=
        list_to_map
          [("awid", VStr AWID);
           ("listId", prop dtoIn "listId");
           ("removedUuIdentity", prop dtoIn "uuIdentity")] in
      json (buildResponse (Some dtoOut) None).

(** POST /shoppingList/leave *)
Definition leave (req : Request) : response :=
  let dtoIn := req_body req in
  let errorMap : obj := ∅ in
  if negb (truthy (prop dtoIn "listId")) then
    let errorMap :=
      <["shoppingList/leave/invalidListId" :=
          buildError "shoppingList/leave/invalidListId" "listId is required."
            (Some {["listId" := prop dtoIn "listId"]})]> errorMap in
    status_json 400 (buildResponse (Some ∅) (Some errorMap))
  else
    let dtoOut : obj :=
      list_to_map
        [("awid", VStr AWID);
         ("listId", prop dtoIn "listId");
         ("leftUuIdentity", VStr (uuIdentity (user req)))] in
    json (buildResponse (Some dtoOut) None).

(** *** The routing table *)

Inductive command : Type :=
| Create | Get | List | Update | Delete | AddMember | RemoveMember | Leave.

Definition command_name (c : command) : string :=
  match c with
  | Create => "create" | Get => "get" | List => "list" | Update => "update"
  | Delete => "delete" | AddMember => "addMember"
  | RemoveMember => "removeMember" | Leave => "leave"
  end.

(** The handler registered for each command. *)
Definition handle (Number : value -> number) (now : Z)
    (c : command) (req : Request) : response :=
  match c with
  | Create => create now req
  | Get => get req
  | List => list Number req
  | Update => update req
  | Delete => delete req
  | AddMember => addMember req
  | RemoveMember => removeMember req
  | Leave => leave req
  end.

(** The profiles each command asks for; [None] for the commands that have
    no authorization check. *)
Definition requiredProfiles (c : command) : option (Datatypes.list string) :=
  match c with
  | Create => Some [PROFILES.USER; PROFILES.AUTHORITIES]
  | Update | Delete | AddMember | RemoveMember =>
      Some [PROFILES.OWNER; PROFILES.AUTHORITIES]
  | Get | List | Leave => None
  end.

(** The server as deployed: the middleware runs before every handler. *)
Definition app (Number : value -> number) (now : Z)
    (c : command) (req : Request) : response :=
  handle Number now c (authenticate req).

End Mock.

(** ** The Mongoose model (models/ShoppingList.js) *)

Module Model.

Record Item : Type :=
  { item_id : string; item_name : string; quantity : number;
    unit : string; resolved : bool }.

Record Member : Type := { uuIdentity : string; role : string }.

(** A stored document. The [createdAt]/[updatedAt] stamps kept by the
    [timestamps] option are read by no handler and are left out. *)
Record ShoppingList : Type :=
  { _id : string;
    name : string;
    state : string;
    ownerUuIdentity : string;
    members : list Member;
    items : list Item }.

(** The schema validators: [required] rejects the empty string, [enum]
    rejects a value outside the listed ones. *)
Definition valid_item (i : Item) : bool := negb (String.eqb (item_name i) "").

Definition valid_member (m : Member) : bool :=
  negb (String.eqb (uuIdentity m) "") && bool_decide (role m ∈ ["owner"; "member"]).

Definition valid_name (s : string) : bool := negb (String.eqb s "").

Definition valid_state (s : string) : bool := bool_decide (s ∈ ["active"; "archived"]).

Definition validate (l : ShoppingList) : bool :=
  valid_name (name l) && valid_state (state l)
  && negb (String.eqb (ownerUuIdentity l) "")
  && forallb valid_member (members l) && forallb valid_item (items l).

(** The collection, in insertion order. *)
Abbreviation Collection := (list ShoppingList).

(** The result of awaiting a promise. *)
Inductive outcome (A : Type) : Type :=
| Resolved (a : A)
| Rejected.
Arguments Resolved {A} a.
Arguments Rejected {A}.

(** What the environment decides for one store call: whether the
    connection answers, and the identifier the driver generates for a new
    document. *)
Record Env : Type := { healthy : bool; newObjectId : string }.

Definition lookup_id (oid : string) (st : Collection) : option ShoppingList :=
  List.find (fun l => String.eqb (_id l) oid) st.

(** The fields a modification may set. A value that is not a string is not
    accepted for either path. *)
Definition string_field (u : obj) (k : string) : outcome (option string) :=
  match u !! k with
  | None | Some VUndefined => Resolved None
  | Some (VStr s) => Resolved (Some s)
  | Some _ => Rejected
  end.

Definition apply_updates (l : ShoppingList) (n s : option string) : ShoppingList :=
  {| _id := _id l;
     name := default (name l) n;
     state := default (state l) s;
     ownerUuIdentity := ownerUuIdentity l;
     members := members l;
     items := items l |}.

(** The collection with the first document of that identifier replaced,
    or removed. *)
Fixpoint replace_id (new : ShoppingList) (st : Collection) : Collection :=
  match st with
  | [] => []
  | l :: st' =>
      if String.eqb (_id l) (_id new) then new :: st'
      else l :: replace_id new st'
  end.

Fixpoint remove_id (oid : string) (st : Collection) : Collection :=
  match st with
  | [] => []
  | l :: st' =>
      if String.eqb (_id l) oid then st' else l :: remove_id oid st'
  end.

Section Store.

(** The methods of the Mongoose model are library code; each is given
    here by its documented result on the collection, following the
    spec's description of the store ("create/find/update/delete by
    identifier", each call atomic). [castObjectId] is the library's
    conversion of a path parameter to a document identifier (in the
    textual form returned by [_id.toString()]); it fails on a string
    that is no identifier. *)
Variable castObjectId : string -> option string.

(** Modelled from the spec: [ShoppingList.find().lean()] *)
Definition find (env : Env) (st : Collection) : outcome Collection :=
  if healthy env then Resolved st else Rejected.

(** Modelled from the spec: [ShoppingList.findById(id).lean()] *)
Definition findById (env : Env) (st : Collection) (id : string)
    : outcome (option ShoppingList) :=
  if healthy env then
    match castObjectId id with
    | Some oid => Resolved (lookup_id oid st)
    | None => Rejected
    end
  else Rejected.

(** Modelled from the spec: [ShoppingList.create(doc)]: the document is validated against the
    schema and inserted under a new identifier. *)
Definition create (env : Env) (st : Collection)
    (n s owner : string) (ms : list Member) (its : list Item)
    : outcome (ShoppingList * Collection) :=
  let doc := {| _id := newObjectId env; name := n; state := s;
                ownerUuIdentity := owner; members := ms; items := its |} in
  if healthy env && validate doc
     && negb (bool_decide (is_Some (lookup_id (newObjectId env) st)))
  then Resolved (doc, (st ++ [doc])%list)
  else Rejected.

(** Modelled from the spec: [ShoppingList.findByIdAndUpdate(id, updates, {new: true,
    runValidators: true}).lean()] *)
Definition findByIdAndUpdate (env : Env) (st : Collection) (id : string)
    (updates : obj) : outcome (option ShoppingList * Collection) :=
  if healthy env then
    match castObjectId id, string_field updates "name",
          string_field updates "state" with
    | Some oid, Resolved n, Resolved s =>
        if from_option valid_name true n && from_option valid_state true s then
          match lookup_id oid st with
          | Some l =>
              let l' := apply_updates l n s in
              Resolved (Some l', replace_id l' st)
          | None => Resolved (None, st)
          end
        else Rejected
    | _, _, _ => Rejected
    end
  else Rejected.

(** Modelled from the spec: [ShoppingList.findByIdAndDelete(id).lean()] *)
Definition findByIdAndDelete (env : Env) (st : Collection) (id : string)
    : outcome (option ShoppingList * Collection) :=
  if healthy env then
    match castObjectId id with
    | Some oid =>
        match lookup_id oid st with
        | Some l => Resolved (Some l, remove_id oid st)
        | None => Resolved (None, st)
        end
    | None => Rejected
    end
  else Rejected.

End Store.

(** The JSON form of the embedded documents. *)
Definition member_json (m : Member) : value :=
  VObj (list_to_map [("uuIdentity", VStr (uuIdentity m)); ("role", VStr (role m))]).

Definition item_json (i : Item) : value :=
  VObj (list_to_map
          [("name", VStr (item_name i)); ("quantity", VNum (quantity i));
           ("unit", VStr (unit i)); ("resolved", VBool (resolved i));
           ("_id", VStr (item_id i))]).

End Model.

(** ** The database-backed server *)

Module Mongo.

Import Model.

(** [buildResponse(data, errorMap = {})] *)
Definition buildResponse (data : obj) (errorMap : option obj) : obj :=
  <["uuAppErrorMap" := VObj (default ∅ errorMap)]> data.

Definition MOCK_OWNER := "uu5:1234-5678".

(** The entry of a [catch] branch. *)
Definition failed (key message : string) : obj :=
  {[ key := VObj (list_to_map [("type", VStr "error"); ("message", VStr message)]) ]}.

(** An entry with a parameter map. *)
Definition error_entry (message : string) (paramMap : obj) : value :=
  VObj (list_to_map
          [("type", VStr "error"); ("message", VStr message);
           ("paramMap", VObj paramMap)]).

(** The payload built from a stored document by get, create and update. *)
Definition list_dto (l : ShoppingList) : obj :=
  list_to_map
    [("id", VStr (_id l));
     ("name", VStr (name l));
     ("state", VStr (state l));
     ("ownerUuIdentity", VStr (ownerUuIdentity l));
     ("members", VArr (member_json <$> members l));
     ("items", VArr (item_json <$> items l))].

(** The request as a handler reads it: the [:id] path parameter and the
    parsed body. *)
Record Request : Type := { params_id : string; req_body : obj }.

Section Server.

(** [mongoose.isValidObjectId] and the identifier conversion of the
    library. *)
Variable isValidObjectId : string -> bool.
Variable castObjectId : string -> option string.

(** GET /shoppingList/list *)
Definition list (env : Env) (st : Collection) (req : Request)
    : response * Collection :=
  match find env st with
  | Resolved lists =>
      let dtoOut : obj :=
        {[ "itemList" :=
             VArr ((fun l =>
                      VObj (list_to_map
                              [("id", VStr (_id l));
                               ("name", VStr (name l));
                               ("state", VStr (state l));
                               ("ownerUuIdentity", VStr (ownerUuIdentity l));
                               ("itemCount", num_of_Z (Z.of_nat (length (items l))))]))
                   <$> lists) ]} in
      (json (buildResponse dtoOut None), st)
  | Rejected =>
      (status_json 500
         (buildResponse ∅
            (Some (failed "shoppingList/list/failed"
                     "Unexpected error while listing shopping lists."))), st)
  end.

(** GET /shoppingList/get/:id *)
Definition get (env : Env) (st : Collection) (req : Request)
    : response * Collection :=
  let errorMap : obj := ∅ in
  let id := params_id req in
  if negb (isValidObjectId id) then
    let errorMap :=
      <["shoppingList/get/invalidId" :=
          error_entry "id is not a valid ObjectId." {["id" := VStr id]}]> errorMap in
    (status_json 400 (buildResponse ∅ (Some errorMap)), st)
  else
    match findById castObjectId env st id with
    | Resolved None =>
        let errorMap :=
          <["shoppingList/get/notFound" :=
              error_entry "Shopping list not found." {["id" := VStr id]}]> errorMap in
        (status_json 404 (buildResponse ∅ (Some errorMap)), st)
    | Resolved (Some l) =>
        (json (buildResponse (list_dto l) None), st)
    | Rejected =>
        (status_json 500
           (buildResponse ∅
              (Some (failed "shoppingList/get/failed"
                       "Unexpected error while getting shopping list."))), st)
    end.

(** POST /shoppingList/create *)
Definition create (env : Env) (st : Collection) (req : Request)
    : response * Collection :=
  let errorMap : obj := ∅ in
  let name := prop (req_body req) "name" in
  if negb (truthy name) || negb (is_string name)
     || negb (truthy (VStr (trim_value name))) then
    let errorMap :=
      <["shoppingList/create/invalidName" :=
          error_entry "name is required and must be a non-empty string."
            {["name" := name]}]> errorMap in
    (status_json 400 (buildResponse ∅ (Some errorMap)), st)
  else
    match Model.create env st (trim_value name) "active" MOCK_OWNER
            [{| uuIdentity := MOCK_OWNER; role := "owner" |}] [] with
    | Resolved (l, st') =>
        (status_json 201 (buildResponse (list_dto l) None), st')
    | Rejected =>
        (status_json 500
           (buildResponse ∅
              (Some (failed "shoppingList/create/failed"
                       "Unexpected error while creating shopping list."))), st)
    end.

(** The validation block of PUT /shoppingList/update/:id: the error map
    after the three checks have run. *)
Definition update_checks (id : string) (name state : value) (errorMap : obj) : obj :=
  let errorMap :=
    if negb (isValidObjectId id) then
      <["shoppingList/update/invalidId" :=
          error_entry "id is not a valid ObjectId." {["id" := VStr id]}]> errorMap
    else errorMap in
  let errorMap :=
    if is_defined name
       && (negb (is_string name) || negb (truthy (VStr (trim_value name)))) then
      <["shoppingList/update/invalidName" :=
          error_entry "name must be a non-empty string, if provided."
            {["name" := name]}]> errorMap
    else errorMap in
  let errorMap :=
    if is_defined state && negb (includes ["active"; "archived"] state) then
      <["shoppingList/update/invalidState" :=
          error_entry "state must be 'active' or 'archived', if provided."
            {["state" := state]}]> errorMap
    else errorMap in
  errorMap.

(** PUT /shoppingList/update/:id *)
Definition update (env : Env) (st : Collection) (req : Request)
    : response * Collection :=
  let errorMap : obj := ∅ in
  let id := params_id req in
  let name := prop (req_body req) "name" in
  let state := prop (req_body req) "state" in
  let errorMap := update_checks id name state errorMap in
  if has_keys errorMap then
    (status_json 400 (buildResponse ∅ (Some errorMap)), st)
  else
    let updates : obj := ∅ in
    let updates :=
      if is_defined name then <["name" := VStr (trim_value name)]> updates
      else updates in
    let updates :=
      if is_defined state then <["state" := state]> updates else updates in
    match findByIdAndUpdate castObjectId env st id updates with
    | Resolved (None, st') =>
        let errorMap :=
          <["shoppingList/update/notFound" :=
              error_entry "Shopping list not found." {["id" := VStr id]}]> errorMap in
        (status_json 404 (buildResponse ∅ (Some errorMap)), st')
    | Resolved (Some l, st') =>
        (json (buildResponse (list_dto l) None), st')
    | Rejected =>
        (status_json 500
           (buildResponse ∅
              (Some (failed "shoppingList/update/failed"
                       "Unexpected error while updating shopping list."))), st)
    end.

(** DELETE /shoppingList/delete/:id *)
Definition delete (env : Env) (st : Collection) (req : Request)
    : response * Collection :=
  let errorMap : obj := ∅ in
  let id := params_id req in
  if negb (isValidObjectId id) then
    let errorMap :=
      <["shoppingList/delete/invalidId" :=
          error_entry "id is not a valid ObjectId." {["id" := VStr id]}]> errorMap in
    (status_json 400 (buildResponse ∅ (Some errorMap)), st)
  else
    match findByIdAndDelete castObjectId env st id with
    | Resolved (None, st') =>
        let errorMap :=
          <["shoppingList/delete/notFound" :=
              error_entry "Shopping list not found." {["id" := VStr id]}]> errorMap in
        (status_json 404 (buildResponse ∅ (Some errorMap)), st')
    | Resolved (Some l, st') =>
        let dtoOut : obj :=
          list_to_map [("id", VStr (_id l)); ("deleted", VBool true)] in
        (json (buildResponse dtoOut None), st')
    | Rejected =>
        (status_json 500
           (buildResponse ∅
              (Some (failed "shoppingList/delete/failed"
                       "Unexpected error while deleting shopping list."))), st)
    end.

(** *** The routing table *)

Inductive command : Type := List | Get | Create | Update | Delete.

Definition handle (c : command) (env : Env) (st : Collection) (req : Request)
    : response * Collection :=
  match c with
  | List => list env st req
  | Get => get env st req
  | Create => create env st req
  | Update => update env st req
  | Delete => delete env st req
  end.

End Server.

End Mongo.

(** ** Validity of the update fields, in the words of the spec

    The command table of the spec gives the validations of update as
    "id well-formed, name non-empty, state in {active, archived}". They are
    stated here on values, to be compared with the tests of the handlers. *)

(** A name that is required: a string that is not empty once trimmed. *)
Definition spec_name_required (v : value) : bool :=
  match v with
  | VStr s => negb (String.eqb (trim s) "")
  | _ => false
  end.

(** A name that may be left out. *)
Definition spec_name_optional (v : value) : bool :=
  match v with
  | VUndefined => true
  | _ => spec_name_required v
  end.

(** A state that may be left out. *)
Definition spec_state_optional (v : value) : bool :=
  match v with
  | VUndefined => true
  | VStr s => String.eqb s "active" || String.eqb s "archived"
  | _ => false
  end.

(** ** Predicates of the statements *)

(** The envelope law: the reserved field holds a map, which is empty
    exactly on a 2xx status. *)
Definition envelope (r : response) : Prop :=
  ∃ em : obj,
    body r !! "uuAppErrorMap" = Some (VObj em)
    ∧ (em = ∅ ↔ is_2xx (status r) = true)
    ∧ (status r ∈ [403; 400; 404; 500] → em ≠ ∅)
    ∧ status r ∈ [200; 201; 400; 403; 404; 500].

(** The number of violations a check contributes. *)
Definition b2n (b : bool) : nat := if b then 1%nat else 0%nat.

(** The document the create handler asks the store to insert. *)
Definition created (oid n : string) : Model.ShoppingList :=
  {| Model._id := oid;
     Model.name := n;
     Model.state := "active";
     Model.ownerUuIdentity := Mongo.MOCK_OWNER;
     Model.members :=
       [{| Model.uuIdentity := Mongo.MOCK_OWNER; Model.role := "owner" |}];
     Model.items := [] |}.


(** Identifiers are unique in a collection filled through [Model.create]. *)
Definition unique_ids (st : Model.Collection) : Prop := NoDup (Model._id <$> st).

(** ** Sample requests *)

Module Samples.

(** A caller that is only a member of the list, sending an update in
    which every field is wrong. *)
Definition member_update : Mock.Request :=
  {| Mock.user := {| Mock.uuIdentity := "uu5:8765-4321";
                     Mock.profiles := [Mock.PROFILES.MEMBER] |};
     Mock.req_body := {[ "state" := VStr "deleted" ]};
     Mock.req_query := ∅ |}.

(** A request as it leaves the middleware, with the given body and query. *)
Definition authenticated (body query : obj) : Mock.Request :=
  Mock.authenticate
    {| Mock.user := {| Mock.uuIdentity := ""; Mock.profiles := [] |};
       Mock.req_body := body; Mock.req_query := query |}.

(** The value of a string of decimal digits. *)
Fixpoint digits (s : string) (acc : Z) : option Z :=
  match s with
  | EmptyString => Some acc
  | String c s' =>
      let n := N_of_ascii c in
      if ((48 <=? n) && (n <=? 57))%N then digits s' (10 * acc + Z.of_N (n - 48))
      else None
  end.

(** A stand-in for [Number(v)], used in the examples only: the theorems hold
    for every conversion. It agrees with JavaScript on numbers, booleans,
    [null], [undefined], the empty string and the strings of decimal
    digits; it sends every other string, and arrays and objects, to NaN,
    which JavaScript does for most of them but not for all. *)
Definition Number (v : value) : number :=
  match v with
  | VNum n => n
  | VBool b => Finite (inject_Z (if b then 1 else 0))
  | VNull => Finite (inject_Z 0)
  | VStr s =>
      match digits s 0 with
      | Some z => Finite (inject_Z z)
      | None => NaN
      end
  | VUndefined | VArr _ | VObj _ => NaN
  end.

Definition now : Z := 1700000000000.

(** A stand-in for [mongoose.isValidObjectId] and the identifier
    conversion, used in the examples only: the theorems hold for every
    such pair. An identifier is a string of 24 hexadecimal digits in either
    case, and its textual form is in lower case; the other forms the
    library accepts (such as 12-byte strings) are left out. *)
Definition is_hex (c : ascii) : bool :=
  let n := N_of_ascii c in
  ((48 <=? n) && (n <=? 57) || (97 <=? n) && (n <=? 102)
   || (65 <=? n) && (n <=? 70))%N.

Definition lower_hex (c : ascii) : ascii :=
  let n := N_of_ascii c in
  if ((65 <=? n) && (n <=? 70))%N then ascii_of_N (n + 32) else c.

Definition isValidObjectId (s : string) : bool :=
  (String.length s =? 24)%nat && forallb is_hex (list_ascii_of_string s).

Definition castObjectId (s : string) : option string :=
  if isValidObjectId s
  then Some (string_of_list_ascii (List.map lower_hex (list_ascii_of_string s)))
  else None.

Definition env : Model.Env :=
  {| Model.healthy := true; Model.newObjectId := "65f1a2b3c4d5e6f708192a3b" |}.

Definition stored : Model.ShoppingList :=
  {| Model._id := "65f1a2b3c4d5e6f708192a3a";
     Model.name := "Old name";
     Model.state := "active";
     Model.ownerUuIdentity := "uu5:1234-5678";
     Model.members := [{| Model.uuIdentity := "uu5:1234-5678"; Model.role := "owner" |}];
     Model.items := [{| Model.item_id := "65f1a2b3c4d5e6f708192a30";
                        Model.item_name := "Milk";
                        Model.quantity := Finite (inject_Z 2);
                        Model.unit := "pcs";
                        Model.resolved := false |}] |}.

Definition collection : Model.Collection := [stored].

(** An update of the mock server without [id] and [name]. *)
Definition bad_update : Mock.Request :=
  authenticated {[ "state" := VStr "deleted" ]} ∅.

(** An update of the database server in which the three fields are wrong. *)
Definition bad_put : Mongo.Request :=
  {| Mongo.params_id := "not-an-id";
     Mongo.req_body := list_to_map [("name", VStr "   "); ("state", VStr "deleted")] |}.


Definition put_deleted : Mongo.Request :=
  {| Mongo.params_id := "65f1a2b3c4d5e6f708192a3a";
     Mongo.req_body := {[ "state" := VStr "deleted" ]} |}.



(** A body that supplies neither [name] nor [state], put to the stored
    document. *)
Definition put_nothing : Mongo.Request :=
  {| Mongo.params_id := "65f1a2b3c4d5e6f708192a3a"; Mongo.req_body := ∅ |}.

(** A create request, for either server. *)
Definition groceries : obj := {[ "name" := VStr " Saturday Groceries " ]}.

Definition post_groceries : Mongo.Request :=
  {| Mongo.params_id := ""; Mongo.req_body := groceries |}.

End Samples.

(** ** Further predicates and requests *)

(** The request of another caller, with the same body and query. *)
Definition as_user (u : Mock.User) (req : Mock.Request) : Mock.Request :=
  {| Mock.user := u; Mock.req_body := Mock.req_body req;
     Mock.req_query := Mock.req_query req |}.

(** The name under which a command of the database server reports. *)
Definition mongo_command_name (c : Mongo.command) : string :=
  match c with
  | Mongo.List => "list" | Mongo.Get => "get" | Mongo.Create => "create"
  | Mongo.Update => "update" | Mongo.Delete => "delete"
  end.

(** The commands of the database server that take the [:id] parameter. *)
Definition takes_id (c : Mongo.command) : bool :=
  match c with
  | Mongo.Get | Mongo.Update | Mongo.Delete => true
  | Mongo.List | Mongo.Create => false
  end.

(** A stored document as the data model wants it: accepted by the schema,
    with a name that is its own trimmed form. *)
Definition well_formed (l : Model.ShoppingList) : Prop :=
  Model.validate l = true ∧ trim (Model.name l) = Model.name l.

Definition all_well_formed (st : Model.Collection) : Prop := Forall well_formed st.

(** The fields an update request supplies, as the handler hands them to
    the store: the trimmed name and the state, when present. *)
Definition supplied_name (b : obj) : option string :=
  match prop b "name" with
  | VStr s => Some (trim s)
  | _ => None
  end.

Definition supplied_state (b : obj) : option string :=
  match prop b "state" with
  | VStr s => Some s
  | _ => None
  end.

(** A value that is a non-empty string. *)
Definition is_nonempty_string (v : value) : bool :=
  match v with
  | VStr s => negb (String.eqb s "")
  | _ => false
  end.

(** The two lists every answer of the mock server's list command carries. *)
Definition mock_item_list : value :=
  VArr [VObj (list_to_map [("id", VStr "list-1");
                           ("name", VStr "Saturday Groceries");
                           ("state", VStr "active");
                           ("ownerUuIdentity", VStr "uu5:1234-5678");
                           ("itemCount", num_of_Z 5)]);
        VObj (list_to_map [("id", VStr "list-2");
                           ("name", VStr "Hiking Trip");
                           ("state", VStr "active");
                           ("ownerUuIdentity", VStr "uu5:4444-1111");
                           ("itemCount", num_of_Z 3)])].

(** An entry of an error map: an object of type ["error"] with a message;
    and an error map whose keys all belong to one command. *)
Definition is_error_entry (v : value) : Prop :=
  ∃ (m : obj) (message : string),
    v = VObj m
    ∧ m !! "type" = Some (VStr "error")
    ∧ m !! "message" = Some (VStr message).

Definition error_map_of (command : string) (em : obj) : Prop :=
  map_Forall
    (fun k v =>
       String.prefix ("shoppingList/" +:+ command +:+ "/") k = true
       ∧ is_error_entry v) em.

Definition carries_error_map_of (command : string) (r : response) : Prop :=
  ∃ em : obj, body r !! "uuAppErrorMap" = Some (VObj em) ∧ error_map_of command em.

(** ** Requests without a parsed body

    [express.json()] leaves [req.body] undefined when a request carries no
    JSON body. The handlers take [req.body] as it is ([const dtoIn =
    req.body], or a destructuring of it) and read its properties without a
    guard; a property read of [undefined] throws. The handlers above are
    the handlers on a request whose body was parsed; the definitions below
    extend them to a request as the framework delivers it. *)

(** What a handler does with a request: it writes a response, or it throws
    before it has written one. Whatever the framework answers after a
    throw is not built by [buildResponse] and has no [uuAppErrorMap]. *)
Inductive served : Type :=
| Answered (r : response)
| Thrown.

Record MockIncoming : Type :=
  { in_user : Mock.User; in_body : option obj; in_query : obj }.

(** The request with the properties of the body that are there to read:
    none when the body is undefined. *)
Definition mock_parsed (i : MockIncoming) : Mock.Request :=
  {| Mock.user := in_user i;
     Mock.req_body := default ∅ (in_body i);
     Mock.req_query := in_query i |}.

(** Whether the path a request takes through the handler of a command
    reads a property of [req.body]. get and list read [req.query] only.
    leave starts with [dtoIn.listId]. The other commands read the body
    after their authorization check, which returns for a caller without a
    required profile and reads [req.user] only. *)
Definition mock_reads_body (c : Mock.command) (i : MockIncoming) : bool :=
  match c with
  | Mock.Get | Mock.List => false
  | Mock.Leave => true
  | Mock.Create =>
      Mock.hasAnyProfile (mock_parsed i) [Mock.PROFILES.USER; Mock.PROFILES.AUTHORITIES]
  | Mock.Update | Mock.Delete | Mock.AddMember | Mock.RemoveMember =>
      Mock.hasAnyProfile (mock_parsed i) [Mock.PROFILES.OWNER; Mock.PROFILES.AUTHORITIES]
  end.

(** The mock server on a request as delivered: the handler throws at its
    first read of a property of an undefined body. *)
Definition mock_serve (Number : value -> number) (now : Z)
    (c : Mock.command) (i : MockIncoming) : served :=
  match in_body i with
  | None =>
      if mock_reads_body c i then Thrown
      else Answered (Mock.handle Number now c (mock_parsed i))
  | Some _ => Answered (Mock.handle Number now c (mock_parsed i))
  end.

Record MongoIncoming : Type := { in_params_id : string; in_json : option obj }.

Definition mongo_parsed (i : MongoIncoming) : Mongo.Request :=
  {| Mongo.params_id := in_params_id i; Mongo.req_body := default ∅ (in_json i) |}.

(** create and update start with a destructuring of [req.body], before
    their validation and outside their [try] block; list, get and delete
    do not read the body. *)
Definition mongo_reads_body (c : Mongo.command) : bool :=
  match c with
  | Mongo.Create | Mongo.Update => true
  | Mongo.List | Mongo.Get | Mongo.Delete => false
  end.

(** The database server on a request as delivered; a handler that throws
    has not called the store. *)
Definition mongo_serve (isValidObjectId : string -> bool)
    (castObjectId : string -> option string)
    (c : Mongo.command) (env : Model.Env) (st : Model.Collection)
    (i : MongoIncoming) : served * Model.Collection :=
  match in_json i with
  | None =>
      if mongo_reads_body c then (Thrown, st)
      else
        let '(r, st') := Mongo.handle isValidObjectId castObjectId c env st (mongo_parsed i) in
        (Answered r, st')
  | Some _ =>
      let '(r, st') := Mongo.handle isValidObjectId castObjectId c env st (mongo_parsed i) in
      (Answered r, st')
  end.


(** ** The entries of the update error maps, written out *)

(** An entry with the given message and the offending value under the
    name of its field. *)
Definition violation (message field : string) (raw : value) : value :=
  VObj (list_to_map
          [("type", VStr "error");
           ("message", VStr message);
           ("paramMap", VObj {[ field := raw ]})]).

(** The entry a check contributes to the error map: none when the field
    passes. *)
Definition reported (ok : bool) (message field : string) (raw : value) : option value :=
  if ok then None else Some (violation message field raw).

Module Cases.




(** An update of the mock server in which id, name and state are all
    wrong. *)
Definition three_bad_fields : Mock.Request :=
  Samples.authenticated
    (list_to_map [("id", VStr ""); ("name", VStr "  "); ("state", VStr "deleted")]) ∅.


(** A caller without any profile. *)
Definition nobody : Mock.User := {| Mock.uuIdentity := "uu5:0000-0000"; Mock.profiles := [] |}.

(** The owner of the samples. *)
Definition owner : Mock.User :=
  {| Mock.uuIdentity := "uu5:1234-5678";
     Mock.profiles := [Mock.PROFILES.USER; Mock.PROFILES.OWNER] |}.

Definition request (u : Mock.User) (body query : obj) : Mock.Request :=
  {| Mock.user := u; Mock.req_body := body; Mock.req_query := query |}.

(** A member request whose identity is a number. *)
Definition numeric_identity : Mock.Request :=
  request owner
    (list_to_map [("listId", VStr "list-1"); ("uuIdentity", num_of_Z 5)]) ∅.

(** A member request without a role. *)
Definition add_without_role : Mock.Request :=
  request owner
    (list_to_map [("listId", VStr "list-1"); ("uuIdentity", VStr "uu5:8765-4321")]) ∅.

(** A request to leave a list, from the caller without profile. *)
Definition leave_list : Mock.Request :=
  request nobody {[ "listId" := VStr "list-1" ]} ∅.

(** The second page of size one. *)
Definition second_page : Mock.Request :=
  request nobody ∅
    (list_to_map [("pageIndex", VStr "1"); ("pageSize", VStr "1")]).

(** The create request of the test suite without a name. *)
Definition post_nothing : Mongo.Request :=
  {| Mongo.params_id := ""; Mongo.req_body := ∅ |}.

(** A store that does not answer. *)
Definition down : Model.Env :=
  {| Model.healthy := false; Model.newObjectId := "65f1a2b3c4d5e6f708192a3b" |}.

(** A second stored document, and a collection of two. *)
Definition other : Model.ShoppingList :=
  {| Model._id := "65f1a2b3c4d5e6f708192a3c";
     Model.name := "Hiking Trip";
     Model.state := "archived";
     Model.ownerUuIdentity := "uu5:4444-1111";
     Model.members := [{| Model.uuIdentity := "uu5:4444-1111"; Model.role := "owner" |}];
     Model.items := [] |}.

Definition two_lists : Model.Collection := [Samples.stored; other].

(** A rename of the first stored document. *)
Definition put_rename : Mongo.Request :=
  {| Mongo.params_id := "65f1a2b3c4d5e6f708192a3a";
     Mongo.req_body := {[ "name" := VStr "  New name " ]} |}.

Definition by_id (id : string) : Mongo.Request :=
  {| Mongo.params_id := id; Mongo.req_body := ∅ |}.

End Cases.

(** * Properties *)

(** ** Values and strings *)

Example trim_ex1 : trim "  Saturday Groceries " = "Saturday Groceries".
Proof. reflexivity. Qed.

Example trim_ex2 : trim "   " = "".
Proof. reflexivity. Qed.

Lemma has_keys_true (m : obj) : has_keys m = true ↔ m ≠ ∅.
Proof.
  unfold has_keys. rewrite bool_decide_eq_true, <- map_size_non_empty_iff. lia.
Qed.

Lemma has_keys_false (m : obj) : has_keys m = false ↔ m = ∅.
Proof.
  unfold has_keys. rewrite bool_decide_eq_false, <- map_size_empty_iff. lia.
Qed.

(** ** The response envelope *)

(** Membership in a literal list, as a hypothesis and as a goal. *)
Ltac split_elem H :=
  repeat (apply elem_of_cons in H as [H | H]; [subst |]);
  try (by apply elem_of_nil in H).

Ltac in_literal :=
  rewrite list_elem_of_In; cbn; repeat first [left; reflexivity | right].

Lemma envelope_success (c : Z) (dto : obj) :
  c ∈ [200; 201] → envelope (Response c (Mongo.buildResponse dto None)).
Proof.
  intros Hc. exists ∅. unfold Mongo.buildResponse. cbn [body status default].
  rewrite lookup_insert_eq.
  split; [done |]. split; [| split].
  - split_elem Hc; done.
  - intros H. split_elem Hc; split_elem H; done.
  - split_elem Hc; in_literal.
Qed.

Lemma envelope_failure (c : Z) (dto em : obj) :
  c ∈ [403; 400; 404; 500] → em ≠ ∅ →
  envelope (Response c (Mongo.buildResponse dto (Some em))).
Proof.
  intros Hc Hem. exists em. unfold Mongo.buildResponse. cbn [body status default].
  rewrite lookup_insert_eq.
  split; [done |]. split; [| split; [done |]].
  - split_elem Hc; split; intros; done.
  - split_elem Hc; in_literal.
Qed.

(** Every branch of a handler ends in one of the two shapes above. *)
Ltac envelope_branch :=
  unfold status_json, json;
  first
    [ apply envelope_success; in_literal
    | apply envelope_failure;
      [ in_literal
      | first [ apply insert_non_empty
              | apply has_keys_true; assumption
              | unfold Mongo.failed; apply insert_non_empty ] ] ].

Lemma has_keys_empty : has_keys ∅ = false.
Proof. reflexivity. Qed.

Ltac envelope_handler :=
  cbv zeta; repeat case_match; subst; cbn [fst];
  try match goal with
      | H : has_keys ∅ = true |- _ => rewrite has_keys_empty in H; discriminate H
      end;
  envelope_branch.

Section MockEnvelope.

Variable Number : value -> number.
Variable now : Z.

Lemma mock_handle_envelope (c : Mock.command) (req : Mock.Request) :
  envelope (Mock.handle Number now c req).
Proof.
  destruct c; unfold Mock.handle.
  - unfold Mock.create. envelope_handler.
  - unfold Mock.get. envelope_handler.
  - unfold Mock.list. envelope_handler.
  - unfold Mock.update. envelope_handler.
  - unfold Mock.delete. envelope_handler.
  - unfold Mock.addMember. envelope_handler.
  - unfold Mock.removeMember. envelope_handler.
  - unfold Mock.leave. envelope_handler.
Qed.

End MockEnvelope.

Section MongoEnvelope.

Variable isValidObjectId : string -> bool.
Variable castObjectId : string -> option string.

Lemma mongo_handle_envelope (c : Mongo.command) (env : Model.Env)
    (st : Model.Collection) (req : Mongo.Request) :
  envelope (Mongo.handle isValidObjectId castObjectId c env st req).1.
Proof.
  destruct c; unfold Mongo.handle.
  - unfold Mongo.list. envelope_handler.
  - unfold Mongo.get. envelope_handler.
  - unfold Mongo.create. envelope_handler.
  - unfold Mongo.update. envelope_handler.
  - unfold Mongo.delete. envelope_handler.
Qed.

End MongoEnvelope.

(** Every response that a handler builds, for a request whose body was
    parsed, obeys the envelope law; this is so for every command of either
    server. *)
Theorem every_response_carries_error_map
    (Number : value -> number) (now : Z)
    (isValidObjectId : string -> bool) (castObjectId : string -> option string) :
  (∀ (c : Mock.command) (req : Mock.Request),
      envelope (Mock.handle Number now c req))
  ∧ (∀ (c : Mongo.command) (env : Model.Env) (st : Model.Collection)
       (req : Mongo.Request),
      envelope (Mongo.handle isValidObjectId castObjectId c env st req).1).
Proof.
  split.
  - apply mock_handle_envelope.
  - apply mongo_handle_envelope.
Qed.

(** *** Requests without a parsed body *)

(** The body is irrelevant on the paths that do not read it. *)
Lemma mock_unread_body_is_irrelevant
    (Number : value -> number) (now : Z) (c : Mock.command) (i : MockIncoming)
    (b : obj) :
  mock_reads_body c i = false →
  Mock.handle Number now c
    {| Mock.user := in_user i; Mock.req_body := b; Mock.req_query := in_query i |}
  = Mock.handle Number now c (mock_parsed i).
Proof.
  intros Hread.
  destruct c; cbn [mock_reads_body] in Hread; try discriminate Hread;
    cbn [Mock.handle]; try reflexivity.
  all: unfold Mock.hasAnyProfile in Hread; cbn [mock_parsed Mock.user] in Hread.
  - unfold Mock.create, Mock.hasAnyProfile. cbn [mock_parsed Mock.user].
    by rewrite Hread.
  - unfold Mock.update, Mock.hasAnyProfile. cbn [mock_parsed Mock.user].
    by rewrite Hread.
  - unfold Mock.delete, Mock.hasAnyProfile. cbn [mock_parsed Mock.user].
    by rewrite Hread.
  - unfold Mock.addMember, Mock.hasAnyProfile. cbn [mock_parsed Mock.user].
    by rewrite Hread.
  - unfold Mock.removeMember, Mock.hasAnyProfile. cbn [mock_parsed Mock.user].
    by rewrite Hread.
Qed.

Lemma mongo_unread_body_is_irrelevant
    (isValidObjectId : string -> bool) (castObjectId : string -> option string)
    (c : Mongo.command) (env : Model.Env) (st : Model.Collection)
    (i : MongoIncoming) (b : obj) :
  mongo_reads_body c = false →
  Mongo.handle isValidObjectId castObjectId c env st
    {| Mongo.params_id := in_params_id i; Mongo.req_body := b |}
  = Mongo.handle isValidObjectId castObjectId c env st (mongo_parsed i).
Proof. intros Hread. by destruct c. Qed.

(** A request without a body to a command that reads it is not answered
    by the handler, in either server. *)
Lemma bodyless_request_is_thrown
    (Number : value -> number) (now : Z)
    (isValidObjectId : string -> bool) (castObjectId : string -> option string)
    (c : Mock.command) (i : MockIncoming)
    (c' : Mongo.command) (env : Model.Env) (st : Model.Collection)
    (i' : MongoIncoming) :
  in_body i = None → mock_reads_body c i = true →
  in_json i' = None → mongo_reads_body c' = true →
  mock_serve Number now c i = Thrown
  ∧ mongo_serve isValidObjectId castObjectId c' env st i' = (Thrown, st).
Proof.
  intros Hbody Hread Hjson Hread'. unfold mock_serve, mongo_serve.
  by rewrite Hbody, Hread, Hjson, Hread'.
Qed.




(** C9. For every payload and every error map, the object built by
    [buildResponse] holds exactly the supplied error map under
    [uuAppErrorMap], also when the payload has a field of that name; the
    other fields of the payload are kept. This holds for the helper of
    either server. *)
Theorem buildResponse_reserved_field (payload errorMap : obj) :
  Mock.buildResponse (Some payload) (Some errorMap) !! "uuAppErrorMap"
    = Some (VObj errorMap)
  ∧ Mongo.buildResponse payload (Some errorMap) !! "uuAppErrorMap"
    = Some (VObj errorMap)
  ∧ (∀ k : string, k ≠ "uuAppErrorMap" →
       Mock.buildResponse (Some payload) (Some errorMap) !! k = payload !! k
       ∧ Mongo.buildResponse payload (Some errorMap) !! k = payload !! k).
Proof.
  unfold Mock.buildResponse, Mongo.buildResponse. cbn [from_option id].
  rewrite lookup_insert_eq. split; [done | split; [done |]].
  intros k Hk. by rewrite !lookup_insert_ne by done.
Qed.

(** A payload that tries to shadow the reserved field. *)
Example buildResponse_shadowing :
  Mock.buildResponse (Some {[ "uuAppErrorMap" := VStr "spoofed" ]}) None
  = {[ "uuAppErrorMap" := VObj ∅ ]}.
Proof. unfold Mock.buildResponse. cbn [from_option id]. apply insert_singleton_eq. Qed.

(** ** The authorization gate *)

Lemma hasAnyProfile_true (req : Mock.Request) (required : list string) :
  Mock.hasAnyProfile req required = true
  ↔ ∃ p, p ∈ required ∧ p ∈ Mock.profiles (Mock.user req).
Proof.
  unfold Mock.hasAnyProfile. rewrite existsb_exists. split.
  - intros (p & Hin & Hp). exists p. split.
    + exact (proj2 (list_elem_of_In _ _) Hin).
    + exact (proj1 (bool_decide_eq_true _) Hp).
  - intros (p & Hin & Hp). exists p. split.
    + exact (proj1 (list_elem_of_In _ _) Hin).
    + exact (proj2 (bool_decide_eq_true _) Hp).
Qed.

Lemma hasAnyProfile_false (req : Mock.Request) (required : list string) :
  Mock.hasAnyProfile req required = false
  ↔ ∀ p, p ∈ required → p ∉ Mock.profiles (Mock.user req).
Proof.
  rewrite <- not_true_iff_false, hasAnyProfile_true. split.
  - intros Hno p Hp Hq. apply Hno. by exists p.
  - intros Hno (p & Hp & Hq). by apply (Hno p).
Qed.

(** C3. For every request to a command of the mock server that has an
    authorization check, if no profile of the caller is among the profiles
    the command asks for, the response has status 403 and its body is
    exactly an error map with the single key
    ["shoppingList/<command>/unauthorized"]: no validation entry is added
    and nothing of the request body is read. *)
Theorem unauthorized_short_circuits
    (Number : value -> number) (now : Z)
    (c : Mock.command) (required : list string) (req : Mock.Request) :
  Mock.requiredProfiles c = Some required →
  (∀ p, p ∈ required → p ∉ Mock.profiles (Mock.user req)) →
  ∃ message : string,
    let key := "shoppingList/" +:+ Mock.command_name c +:+ "/unauthorized" in
    Mock.handle Number now c req
    = Response 403
        {[ "uuAppErrorMap" := VObj {[ key := Mock.buildError key message None ]} ]}.
Proof.
  intros Hreq Hdisj. apply hasAnyProfile_false in Hdisj.
  destruct c; cbn in Hreq; simplify_eq; cbn [Mock.handle].
  - unfold Mock.create. rewrite Hdisj. by eexists.
  - unfold Mock.update. rewrite Hdisj. by eexists.
  - unfold Mock.delete. rewrite Hdisj. by eexists.
  - unfold Mock.addMember. rewrite Hdisj. by eexists.
  - unfold Mock.removeMember. rewrite Hdisj. by eexists.
Qed.

(** A caller holding one of the required profiles is never answered 403. *)
Lemma authorized_not_403
    (Number : value -> number) (now : Z)
    (c : Mock.command) (required : list string) (req : Mock.Request) :
  Mock.requiredProfiles c = Some required →
  Mock.hasAnyProfile req required = true →
  status (Mock.handle Number now c req) ≠ 403.
Proof.
  intros Hreq Hauth.
  destruct c; cbn in Hreq; simplify_eq; cbn [Mock.handle].
  - unfold Mock.create. rewrite Hauth. cbv zeta. by repeat case_match.
  - unfold Mock.update. rewrite Hauth. cbv zeta. by repeat case_match.
  - unfold Mock.delete. rewrite Hauth. cbv zeta. by repeat case_match.
  - unfold Mock.addMember. rewrite Hauth. cbv zeta. by repeat case_match.
  - unfold Mock.removeMember. rewrite Hauth. cbv zeta. by repeat case_match.
Qed.

Lemma unauthorized_short_circuits_witness :
  ∃ message : string,
    Mock.handle Samples.Number Samples.now Mock.Update Samples.member_update
    = Response 403
        {[ "uuAppErrorMap" :=
             VObj {[ "shoppingList/update/unauthorized" :=
                       Mock.buildError "shoppingList/update/unauthorized" message None ]} ]}.
Proof.
  apply (unauthorized_short_circuits Samples.Number Samples.now Mock.Update
           [Mock.PROFILES.OWNER; Mock.PROFILES.AUTHORITIES] Samples.member_update).
  - reflexivity.
  - intros p Hp Hq. cbn in Hq. split_elem Hp; split_elem Hq; discriminate.
Defined.

(** ** Field validation *)

Lemma trim_empty_of_empty (s : string) : s = "" → trim s = "".
Proof. by intros ->. Qed.

(** The name test of the mock server is the negation of [spec_name_required]. *)
Lemma blank_or_not_string_spec (v : value) :
  blank_or_not_string v = negb (spec_name_required v).
Proof.
  unfold blank_or_not_string.
  destruct v as [| | b | n | s | l | m]; cbn [is_string negb orb spec_name_required].
  1-4, 6-7: by rewrite orb_true_r.
  cbn [truthy trim_value]. rewrite !negb_involutive, orb_false_r.
  destruct (String.eqb_spec s "") as [-> | _]; [done |].
  by cbn [orb].
Qed.

(** The optional-name test of the database server. *)
Lemma optional_name_test_spec (v : value) :
  is_defined v && (negb (is_string v) || negb (truthy (VStr (trim_value v))))
  = negb (spec_name_optional v).
Proof.
  by destruct v as [| | b | n | s | l | m].
Qed.

Lemma includes_states (v : value) :
  is_defined v && negb (includes ["active"; "archived"] v)
  = negb (spec_state_optional v).
Proof.
  destruct v as [| | b | n | s | l | m]; try done.
  cbn [is_defined includes spec_state_optional andb]. f_equal.
  destruct (String.eqb_spec s "active") as [-> | Ha]; [done |].
  destruct (String.eqb_spec s "archived") as [-> | Hb]; [done |].
  apply bool_decide_eq_false. intros Hin. split_elem Hin; done.
Qed.

(** The error map of the database server's update: one key per field that
    fails its validation, and no other key. *)
Lemma mongo_update_checks_keys (isValidObjectId : string -> bool)
    (id : string) (name state : value) :
  let em := Mongo.update_checks isValidObjectId id name state ∅ in
  (is_Some (em !! "shoppingList/update/invalidId") ↔ isValidObjectId id = false)
  ∧ (is_Some (em !! "shoppingList/update/invalidName")
     ↔ spec_name_optional name = false)
  ∧ (is_Some (em !! "shoppingList/update/invalidState")
     ↔ spec_state_optional state = false)
  ∧ size em = (b2n (negb (isValidObjectId id)) + b2n (negb (spec_name_optional name))
               + b2n (negb (spec_state_optional state)))%nat.
Proof.
  unfold Mongo.update_checks. cbv zeta.
  rewrite optional_name_test_spec, includes_states.
  destruct (isValidObjectId id), (spec_name_optional name),
    (spec_state_optional state); cbn [negb b2n].
  all: repeat split; intros H; try done.
  all: try (by apply is_Some_alt in H).
Qed.

(** The same for the two checks of the mock server. *)
Lemma mock_update_checks_keys (dtoIn : obj) :
  let em := Mock.update_checks dtoIn ∅ in
  (is_Some (em !! "shoppingList/update/invalidId") ↔ truthy (prop dtoIn "id") = false)
  ∧ (is_Some (em !! "shoppingList/update/invalidName")
     ↔ spec_name_required (prop dtoIn "name") = false)
  ∧ size em = (b2n (negb (truthy (prop dtoIn "id")))
               + b2n (negb (spec_name_required (prop dtoIn "name"))))%nat.
Proof.
  unfold Mock.update_checks. cbv zeta.
  rewrite blank_or_not_string_spec.
  destruct (truthy (prop dtoIn "id")), (spec_name_required (prop dtoIn "name"));
    cbn [negb b2n].
  all: repeat split; intros H; try done.
  all: try (by apply is_Some_alt in H).
Qed.

Lemma mock_update_rejects (req : Mock.Request) :
  Mock.hasAnyProfile req [Mock.PROFILES.OWNER; Mock.PROFILES.AUTHORITIES] = true →
  Mock.update_checks (Mock.req_body req) ∅ ≠ ∅ →
  Mock.update req
  = Response 400
      {[ "uuAppErrorMap" := VObj (Mock.update_checks (Mock.req_body req) ∅) ]}.
Proof.
  intros Hauth Hem. apply has_keys_true in Hem.
  unfold Mock.update. rewrite Hauth. cbv zeta. cbn [negb]. by rewrite Hem.
Qed.

Lemma mongo_update_rejects (isValidObjectId : string -> bool)
    (castObjectId : string -> option string)
    (env : Model.Env) (st : Model.Collection) (req : Mongo.Request) :
  let em := Mongo.update_checks isValidObjectId (Mongo.params_id req)
              (prop (Mongo.req_body req) "name")
              (prop (Mongo.req_body req) "state") ∅ in
  em ≠ ∅ →
  Mongo.update isValidObjectId castObjectId env st req
  = (Response 400 {[ "uuAppErrorMap" := VObj em ]}, st).
Proof.
  intros em Hem. apply has_keys_true in Hem.
  unfold Mongo.update. cbv zeta. fold em. by rewrite Hem.
Qed.

(** The entries of the two checks of the mock server, which has no entry
    for [state]. *)
Lemma mock_update_checks_entries (dtoIn : obj) :
  let em := Mock.update_checks dtoIn ∅ in
  em !! "shoppingList/update/invalidId"
  = reported (truthy (prop dtoIn "id")) "id is required." "id" (prop dtoIn "id")
  ∧ em !! "shoppingList/update/invalidName"
    = reported (spec_name_required (prop dtoIn "name"))
        "name is required and must be a non-empty string." "name" (prop dtoIn "name")
  ∧ em !! "shoppingList/update/invalidState" = None.
Proof.
  unfold Mock.update_checks. cbv zeta.
  rewrite blank_or_not_string_spec.
  by destruct (truthy (prop dtoIn "id")), (spec_name_required (prop dtoIn "name")).
Qed.

(** The entries of the three checks of the database server. *)
Lemma mongo_update_checks_entries (isValidObjectId : string -> bool)
    (id : string) (name state : value) :
  let em := Mongo.update_checks isValidObjectId id name state ∅ in
  em !! "shoppingList/update/invalidId"
  = reported (isValidObjectId id) "id is not a valid ObjectId." "id" (VStr id)
  ∧ em !! "shoppingList/update/invalidName"
    = reported (spec_name_optional name)
        "name must be a non-empty string, if provided." "name" name
  ∧ em !! "shoppingList/update/invalidState"
    = reported (spec_state_optional state)
        "state must be 'active' or 'archived', if provided." "state" state.
Proof.
  unfold Mongo.update_checks. cbv zeta.
  rewrite optional_name_test_spec, includes_states.
  by destruct (isValidObjectId id), (spec_name_optional name),
    (spec_state_optional state).
Qed.

(** C2, as stated, fails on the mock server: of an update whose id, name
    and state are all invalid, the error map reports the id and the name
    and has no entry for the state. *)
Lemma mock_update_omits_invalid_state :
  truthy (prop (Mock.req_body Cases.three_bad_fields) "id") = false
  ∧ spec_name_required (prop (Mock.req_body Cases.three_bad_fields) "name") = false
  ∧ spec_state_optional (prop (Mock.req_body Cases.three_bad_fields) "state") = false
  ∧ Mock.app Samples.Number Samples.now Mock.Update Cases.three_bad_fields
    = Response 400
        {[ "uuAppErrorMap" :=
             VObj (list_to_map
                     [("shoppingList/update/invalidId",
                        violation "id is required." "id" (VStr ""));
                      ("shoppingList/update/invalidName",
                        violation "name is required and must be a non-empty string."
                          "name" (VStr "  "))]) ]}
  ∧ (list_to_map
       [("shoppingList/update/invalidId",
          violation "id is required." "id" (VStr ""));
        ("shoppingList/update/invalidName",
          violation "name is required and must be a non-empty string."
            "name" (VStr "  "))] : obj)
      !! "shoppingList/update/invalidState" = None.
Proof. by vm_compute. Qed.

(** C2 (amended). An update in which several fields are invalid at once is
    answered with one error entry per invalid field among the fields the
    server validates, whatever their number: [id], [name] and [state] in
    the database server; [id] and [name] in the mock server, which does not
    check [state] and validates once the caller has passed the
    authorization check. Each entry has type ["error"], the message of its
    check and the received value in its parameter map; the error map has
    no other entry, and as soon as it has one the response is a 400 that
    carries the whole map. *)
Theorem update_reports_every_invalid_field
    (isValidObjectId : string -> bool) (castObjectId : string -> option string)
    (env : Model.Env) (st : Model.Collection)
    (req : Mongo.Request) (mreq : Mock.Request) :
  Mock.hasAnyProfile mreq [Mock.PROFILES.OWNER; Mock.PROFILES.AUTHORITIES] = true →
  (∃ em : obj,
      em !! "shoppingList/update/invalidId"
      = reported (truthy (prop (Mock.req_body mreq) "id"))
          "id is required." "id" (prop (Mock.req_body mreq) "id")
      ∧ em !! "shoppingList/update/invalidName"
        = reported (spec_name_required (prop (Mock.req_body mreq) "name"))
            "name is required and must be a non-empty string."
            "name" (prop (Mock.req_body mreq) "name")
      ∧ em !! "shoppingList/update/invalidState" = None
      ∧ size em
        = (b2n (negb (truthy (prop (Mock.req_body mreq) "id")))
           + b2n (negb (spec_name_required (prop (Mock.req_body mreq) "name"))))%nat
      ∧ (em ≠ ∅ →
         Mock.update mreq = Response 400 {[ "uuAppErrorMap" := VObj em ]}))
  ∧ (∃ em : obj,
      em !! "shoppingList/update/invalidId"
      = reported (isValidObjectId (Mongo.params_id req))
          "id is not a valid ObjectId." "id" (VStr (Mongo.params_id req))
      ∧ em !! "shoppingList/update/invalidName"
        = reported (spec_name_optional (prop (Mongo.req_body req) "name"))
            "name must be a non-empty string, if provided."
            "name" (prop (Mongo.req_body req) "name")
      ∧ em !! "shoppingList/update/invalidState"
        = reported (spec_state_optional (prop (Mongo.req_body req) "state"))
            "state must be 'active' or 'archived', if provided."
            "state" (prop (Mongo.req_body req) "state")
      ∧ size em
        = (b2n (negb (isValidObjectId (Mongo.params_id req)))
           + b2n (negb (spec_name_optional (prop (Mongo.req_body req) "name")))
           + b2n (negb (spec_state_optional (prop (Mongo.req_body req) "state"))))%nat
      ∧ (em ≠ ∅ →
         Mongo.update isValidObjectId castObjectId env st req
         = (Response 400 {[ "uuAppErrorMap" := VObj em ]}, st))).
Proof.
  intros Hauth. split.
  - exists (Mock.update_checks (Mock.req_body mreq) ∅).
    destruct (mock_update_checks_keys (Mock.req_body mreq)) as (_ & _ & Hsize).
    destruct (mock_update_checks_entries (Mock.req_body mreq))
      as (Hid & Hname & Hstate).
    split; [exact Hid |]. split; [exact Hname |]. split; [exact Hstate |].
    split; [exact Hsize |]. by apply mock_update_rejects.
  - exists (Mongo.update_checks isValidObjectId (Mongo.params_id req)
              (prop (Mongo.req_body req) "name")
              (prop (Mongo.req_body req) "state") ∅).
    destruct (mongo_update_checks_keys isValidObjectId (Mongo.params_id req)
                (prop (Mongo.req_body req) "name")
                (prop (Mongo.req_body req) "state"))
      as (_ & _ & _ & Hsize).
    destruct (mongo_update_checks_entries isValidObjectId (Mongo.params_id req)
                (prop (Mongo.req_body req) "name")
                (prop (Mongo.req_body req) "state"))
      as (Hid & Hname & Hstate).
    split; [exact Hid |]. split; [exact Hname |]. split; [exact Hstate |].
    split; [exact Hsize |]. apply mongo_update_rejects.
Qed.

Lemma update_reports_every_invalid_field_witness :
  (∃ em : obj,
      size em = 2%nat
      ∧ em !! "shoppingList/update/invalidState" = None
      ∧ Mock.update Samples.bad_update
        = Response 400 {[ "uuAppErrorMap" := VObj em ]})
  ∧ (∃ em : obj,
      size em = 3%nat
      ∧ em !! "shoppingList/update/invalidState"
        = Some (violation "state must be 'active' or 'archived', if provided."
                  "state" (VStr "deleted"))
      ∧ Mongo.update Samples.isValidObjectId Samples.castObjectId
          Samples.env Samples.collection Samples.bad_put
        = (Response 400 {[ "uuAppErrorMap" := VObj em ]}, Samples.collection)).
Proof.
  destruct (update_reports_every_invalid_field
              Samples.isValidObjectId Samples.castObjectId
              Samples.env Samples.collection Samples.bad_put Samples.bad_update
              eq_refl)
    as [(em1 & _ & _ & Hst1 & Hs1 & Hr1) (em2 & _ & _ & Hst2 & Hs2 & Hr2)].
  vm_compute in Hs1, Hs2. split.
  - exists em1. split; [exact Hs1 |]. split; [exact Hst1 |]. apply Hr1.
    intros ->. discriminate Hs1.
  - exists em2. split; [exact Hs2 |]. split; [exact Hst2 |]. apply Hr2.
    intros ->. discriminate Hs2.
Defined.

(** ** Create *)

Lemma spec_name_required_string (s : string) :
  trim s ≠ "" → spec_name_required (VStr s) = true.
Proof.
  intros Hs. cbn. by destruct (String.eqb_spec (trim s) "").
Qed.

(** The store accepts that document whenever it answers and the generated
    identifier is not taken. *)
Lemma model_create_resolves (env : Model.Env) (st : Model.Collection) (n : string) :
  Model.healthy env = true →
  n ≠ "" →
  Model.lookup_id (Model.newObjectId env) st = None →
  Model.create env st n "active" Mongo.MOCK_OWNER
    [{| Model.uuIdentity := Mongo.MOCK_OWNER; Model.role := "owner" |}] []
  = Model.Resolved (created (Model.newObjectId env) n,
                    st ++ [created (Model.newObjectId env) n])%list.
Proof.
  intros Hup Hn Hfresh. unfold Model.create. cbv zeta.
  rewrite Hup, Hfresh.
  assert (Model.validate
            {| Model._id := Model.newObjectId env; Model.name := n;
               Model.state := "active"; Model.ownerUuIdentity := Mongo.MOCK_OWNER;
               Model.members :=
                 [{| Model.uuIdentity := Mongo.MOCK_OWNER; Model.role := "owner" |}];
               Model.items := [] |} = true) as ->.
  { unfold Model.validate, Model.valid_name. cbn [Model.name].
    destruct (String.eqb_spec n "") as [-> | _]; [done |]. reflexivity. }
  reflexivity.
Qed.

Lemma mongo_create_valid (env : Model.Env) (st : Model.Collection)
    (req : Mongo.Request) (s : string) :
  prop (Mongo.req_body req) "name" = VStr s →
  trim s ≠ "" →
  Model.healthy env = true →
  Model.lookup_id (Model.newObjectId env) st = None →
  Mongo.create env st req
  = (Response 201
       (Mongo.buildResponse
          (Mongo.list_dto (created (Model.newObjectId env) (trim s))) None),
     st ++ [created (Model.newObjectId env) (trim s)])%list.
Proof.
  intros Hname Hs Hup Hfresh. unfold Mongo.create. cbv zeta. rewrite Hname.
  pose proof (optional_name_test_spec (VStr s)) as Htest.
  cbn [is_defined andb spec_name_optional] in Htest.
  rewrite (spec_name_required_string s Hs) in Htest.
  assert (negb (truthy (VStr s)) = false) as ->.
  { cbn. destruct (String.eqb_spec s "") as [-> | _]; [by destruct Hs | done]. }
  cbn [orb]. rewrite Htest. cbn [trim_value].
  by rewrite model_create_resolves.
Qed.

Lemma mock_create_valid (now : Z) (req : Mock.Request) (s : string) :
  prop (Mock.req_body req) "name" = VStr s →
  trim s ≠ "" →
  Mock.hasAnyProfile req [Mock.PROFILES.USER; Mock.PROFILES.AUTHORITIES] = true →
  Mock.create now req
  = Response 200
      (Mock.buildResponse
         (Some (list_to_map
                  [("awid", VStr Mock.AWID);
                   ("id", VStr ("list-" +:+ pretty now));
                   ("name", VStr (trim s));
                   ("state", VStr "active");
                   ("ownerUuIdentity", VStr (Mock.uuIdentity (Mock.user req)));
                   ("members", VArr []);
                   ("items", VArr [])])) None).
Proof.
  intros Hname Hs Hauth. unfold Mock.create. cbv zeta.
  rewrite Hauth, Hname, blank_or_not_string_spec, (spec_name_required_string s Hs).
  reflexivity.
Qed.

(** C4. For every create request whose [name] is a string that is not empty
    once trimmed, the record in the response has the trimmed name and the
    state ["active"]: in the mock server (for a caller holding a required
    profile), and in the database server (when the store answers and the
    generated identifier is new), where the stored document has them too. *)
Theorem create_returns_trimmed_name_and_active
    (now : Z) (env : Model.Env) (st : Model.Collection)
    (mreq : Mock.Request) (req : Mongo.Request) (s : string) :
  trim s ≠ "" →
  prop (Mock.req_body mreq) "name" = VStr s →
  Mock.hasAnyProfile mreq [Mock.PROFILES.USER; Mock.PROFILES.AUTHORITIES] = true →
  prop (Mongo.req_body req) "name" = VStr s →
  Model.healthy env = true →
  Model.lookup_id (Model.newObjectId env) st = None →
  (is_2xx (status (Mock.create now mreq)) = true
   ∧ body (Mock.create now mreq) !! "name" = Some (VStr (trim s))
   ∧ body (Mock.create now mreq) !! "state" = Some (VStr "active"))
  ∧ (is_2xx (status (Mongo.create env st req).1) = true
     ∧ body (Mongo.create env st req).1 !! "name" = Some (VStr (trim s))
     ∧ body (Mongo.create env st req).1 !! "state" = Some (VStr "active")
     ∧ ∃ l : Model.ShoppingList,
         (Mongo.create env st req).2 = (st ++ [l])%list
         ∧ Model.name l = trim s ∧ Model.state l = "active").
Proof.
  intros Hs Hmname Hauth Hname Hup Hfresh.
  rewrite (mock_create_valid now mreq s Hmname Hs Hauth).
  rewrite (mongo_create_valid env st req s Hname Hs Hup Hfresh).
  cbn [fst snd status body]. repeat split.
  by eexists.
Qed.

Lemma create_returns_trimmed_name_and_active_witness :
  body (Mock.create Samples.now (Samples.authenticated Samples.groceries ∅)) !! "name"
    = Some (VStr "Saturday Groceries")
  ∧ body (Mongo.create Samples.env Samples.collection Samples.post_groceries).1 !! "name"
    = Some (VStr "Saturday Groceries").
Proof.
  destruct (create_returns_trimmed_name_and_active
              Samples.now Samples.env Samples.collection
              (Samples.authenticated Samples.groceries ∅) Samples.post_groceries
              " Saturday Groceries ")
    as [(_ & Hmock & _) (_ & Hmongo & _)];
    [ by vm_compute | reflexivity | reflexivity | reflexivity | reflexivity
    | reflexivity | ].
  split; [exact Hmock | exact Hmongo].
Defined.

(** C8, as stated, fails on the mock server: a valid create is answered
    with the default status 200, not 201. *)
Lemma mock_create_answers_200 :
  spec_name_required (prop Samples.groceries "name") = true
  ∧ status (Mock.app Samples.Number Samples.now Mock.Create
              (Samples.authenticated Samples.groceries ∅)) = 200
  ∧ status (Mock.app Samples.Number Samples.now Mock.Create
              (Samples.authenticated Samples.groceries ∅)) ≠ 201.
Proof. repeat split. by vm_compute. Qed.

(** C8 (amended). For every valid create request the success response has
    status 201 in the database server and status 200 in the mock server; in
    both, its body has the fields [id], [name] (the trimmed name) and
    [state] equal to ["active"], and an empty [uuAppErrorMap]. *)
Theorem create_success_response
    (now : Z) (env : Model.Env) (st : Model.Collection)
    (mreq : Mock.Request) (req : Mongo.Request) (s : string) :
  trim s ≠ "" →
  prop (Mock.req_body mreq) "name" = VStr s →
  Mock.hasAnyProfile mreq [Mock.PROFILES.USER; Mock.PROFILES.AUTHORITIES] = true →
  prop (Mongo.req_body req) "name" = VStr s →
  Model.healthy env = true →
  Model.lookup_id (Model.newObjectId env) st = None →
  (status (Mock.create now mreq) = 200
   ∧ body (Mock.create now mreq) !! "id" = Some (VStr ("list-" +:+ pretty now))
   ∧ body (Mock.create now mreq) !! "name" = Some (VStr (trim s))
   ∧ body (Mock.create now mreq) !! "state" = Some (VStr "active")
   ∧ body (Mock.create now mreq) !! "uuAppErrorMap" = Some (VObj ∅))
  ∧ (status (Mongo.create env st req).1 = 201
     ∧ body (Mongo.create env st req).1 !! "id" = Some (VStr (Model.newObjectId env))
     ∧ body (Mongo.create env st req).1 !! "name" = Some (VStr (trim s))
     ∧ body (Mongo.create env st req).1 !! "state" = Some (VStr "active")
     ∧ body (Mongo.create env st req).1 !! "uuAppErrorMap" = Some (VObj ∅)).
Proof.
  intros Hs Hmname Hauth Hname Hup Hfresh.
  rewrite (mock_create_valid now mreq s Hmname Hs Hauth).
  rewrite (mongo_create_valid env st req s Hname Hs Hup Hfresh).
  cbn [fst status body]. repeat split.
Qed.

Lemma create_success_response_witness :
  status (Mock.create Samples.now (Samples.authenticated Samples.groceries ∅)) = 200
  ∧ status (Mongo.create Samples.env Samples.collection Samples.post_groceries).1 = 201.
Proof.
  destruct (create_success_response
              Samples.now Samples.env Samples.collection
              (Samples.authenticated Samples.groceries ∅) Samples.post_groceries
              " Saturday Groceries ")
    as [(Hmock & _) (Hmongo & _)];
    [ by vm_compute | reflexivity | reflexivity | reflexivity | reflexivity
    | reflexivity | ].
  split; [exact Hmock | exact Hmongo].
Defined.

(** ** Update: the state field *)


Lemma lookup_id_elem (oid : string) (st : Model.Collection) (l : Model.ShoppingList) :
  Model.lookup_id oid st = Some l → l ∈ st ∧ Model._id l = oid.
Proof.
  unfold Model.lookup_id. intros Hfind. apply find_some in Hfind as [Hin Heq].
  split.
  - by apply list_elem_of_In.
  - by apply String.eqb_eq.
Qed.








(** ** The collection *)

Lemma lookup_id_app_new (oid : string) (st : Model.Collection) (d : Model.ShoppingList) :
  Model.lookup_id oid st = None → Model._id d = oid →
  Model.lookup_id oid (st ++ [d]) = Some d.
Proof.
  intros Hnone Hid. unfold Model.lookup_id in *.
  induction st as [| l st IH]; cbn [app List.find] in *.
  - by rewrite Hid, String.eqb_refl.
  - destruct (String.eqb (Model._id l) oid); [done | by apply IH].
Qed.

Lemma apply_no_updates (l : Model.ShoppingList) : Model.apply_updates l None None = l.
Proof. by destruct l. Qed.

Lemma replace_id_found (oid : string) (st : Model.Collection) (l : Model.ShoppingList) :
  Model.lookup_id oid st = Some l → Model.replace_id l st = st.
Proof.
  intros Hfind. pose proof (lookup_id_elem _ _ _ Hfind) as [_ Hid].
  unfold Model.lookup_id in Hfind.
  induction st as [| x st IH]; cbn [Model.replace_id List.find] in *; [done |].
  rewrite Hid. destruct (String.eqb (Model._id x) oid).
  - by injection Hfind as ->.
  - f_equal. by apply IH.
Qed.

Lemma remove_id_absent (oid : string) (st : Model.Collection) :
  Model.lookup_id oid st = None → Model.remove_id oid st = st.
Proof.
  unfold Model.lookup_id.
  induction st as [| x st IH]; cbn [Model.remove_id List.find]; [done |].
  destruct (String.eqb (Model._id x) oid); [done |].
  intros Hnone. f_equal. by apply IH.
Qed.

Lemma lookup_id_none (oid : string) (st : Model.Collection) :
  Model.lookup_id oid st = None ↔ oid ∉ (Model._id <$> st).
Proof.
  unfold Model.lookup_id.
  induction st as [| x st IH]; cbn [List.find fmap list_fmap].
  - split; [intros _ Hin; by apply elem_of_nil in Hin | done].
  - rewrite not_elem_of_cons. destruct (String.eqb_spec (Model._id x) oid) as [-> | Hne].
    + split; [done | by intros [Hne _]].
    + rewrite IH. split; [intros Hnotin; by split | by intros [_ Hnotin]].
Qed.

Lemma remove_id_gone (oid : string) (st : Model.Collection) :
  unique_ids st → Model.lookup_id oid (Model.remove_id oid st) = None.
Proof.
  unfold unique_ids.
  induction st as [| x st IH]; cbn [Model.remove_id fmap list_fmap]; [done |].
  intros Hnodup. apply NoDup_cons in Hnodup as [Hx Hnodup].
  destruct (String.eqb_spec (Model._id x) oid) as [<- | Hne].
  - by apply lookup_id_none.
  - unfold Model.lookup_id. cbn [List.find].
    destruct (String.eqb_spec (Model._id x) oid); [done | by apply IH].
Qed.

(** ** Delete *)

Lemma mongo_delete_unknown (isValidObjectId : string -> bool)
    (castObjectId : string -> option string)
    (env : Model.Env) (st : Model.Collection) (req : Mongo.Request) (oid : string) :
  isValidObjectId (Mongo.params_id req) = true →
  castObjectId (Mongo.params_id req) = Some oid →
  Model.lookup_id oid st = None →
  Model.healthy env = true →
  Mongo.delete isValidObjectId castObjectId env st req
  = (Response 404
       {[ "uuAppErrorMap" :=
            VObj {[ "shoppingList/delete/notFound" :=
                      Mongo.error_entry "Shopping list not found."
                        {[ "id" := VStr (Mongo.params_id req) ]} ]} ]}, st).
Proof.
  intros Hvalid Hcast Hnone Hup.
  unfold Mongo.delete, Model.findByIdAndDelete. cbv zeta.
  by rewrite Hvalid, Hup, Hcast, Hnone.
Qed.

Lemma mongo_delete_known (isValidObjectId : string -> bool)
    (castObjectId : string -> option string)
    (env : Model.Env) (st : Model.Collection) (req : Mongo.Request)
    (oid : string) (l : Model.ShoppingList) :
  isValidObjectId (Mongo.params_id req) = true →
  castObjectId (Mongo.params_id req) = Some oid →
  Model.lookup_id oid st = Some l →
  Model.healthy env = true →
  Mongo.delete isValidObjectId castObjectId env st req
  = (Response 200
       (Mongo.buildResponse
          (list_to_map [("id", VStr (Model._id l)); ("deleted", VBool true)]) None),
     Model.remove_id oid st).
Proof.
  intros Hvalid Hcast Hsome Hup.
  unfold Mongo.delete, Model.findByIdAndDelete. cbv zeta.
  by rewrite Hvalid, Hup, Hcast, Hsome.
Qed.

(** When the store does not answer, nothing is removed either. *)
Lemma mongo_delete_failed (isValidObjectId : string -> bool)
    (castObjectId : string -> option string)
    (env : Model.Env) (st : Model.Collection) (req : Mongo.Request) :
  Model.healthy env = false →
  (Mongo.delete isValidObjectId castObjectId env st req).2 = st
  ∧ status (Mongo.delete isValidObjectId castObjectId env st req).1 ∈ [400; 500].
Proof.
  intros Hdown. unfold Mongo.delete, Model.findByIdAndDelete. cbv zeta.
  rewrite Hdown. destruct (isValidObjectId _); cbn; split; try done; in_literal.
Qed.




(** Deleting twice: once a document has been deleted, a second delete of
    the same identifier is answered 404 and changes nothing. *)
Lemma mongo_delete_twice
    (isValidObjectId : string -> bool) (castObjectId : string -> option string)
    (env env' : Model.Env) (st : Model.Collection) (req : Mongo.Request)
    (oid : string) (l : Model.ShoppingList) :
  unique_ids st →
  isValidObjectId (Mongo.params_id req) = true →
  castObjectId (Mongo.params_id req) = Some oid →
  Model.lookup_id oid st = Some l →
  Model.healthy env = true → Model.healthy env' = true →
  let st1 := (Mongo.delete isValidObjectId castObjectId env st req).2 in
  status (Mongo.delete isValidObjectId castObjectId env st req).1 = 200
  ∧ status (Mongo.delete isValidObjectId castObjectId env' st1 req).1 = 404
  ∧ (Mongo.delete isValidObjectId castObjectId env' st1 req).2 = st1.
Proof.
  intros Huniq Hvalid Hcast Hsome Hup Hup'.
  rewrite (mongo_delete_known _ _ _ _ _ oid l Hvalid Hcast Hsome Hup).
  cbn [fst snd status]. split; [done |].
  by rewrite (mongo_delete_unknown _ _ _ _ _ oid Hvalid Hcast
                (remove_id_gone oid st Huniq) Hup').
Qed.

(** ** Create, then get *)

Lemma mongo_get_found (isValidObjectId : string -> bool)
    (castObjectId : string -> option string)
    (env : Model.Env) (st : Model.Collection) (req : Mongo.Request)
    (oid : string) (l : Model.ShoppingList) :
  isValidObjectId (Mongo.params_id req) = true →
  castObjectId (Mongo.params_id req) = Some oid →
  Model.lookup_id oid st = Some l →
  Model.healthy env = true →
  Mongo.get isValidObjectId castObjectId env st req
  = (Response 200 (Mongo.buildResponse (Mongo.list_dto l) None), st).
Proof.
  intros Hvalid Hcast Hsome Hup.
  unfold Mongo.get, Model.findById. cbv zeta.
  by rewrite Hvalid, Hup, Hcast, Hsome.
Qed.

(** The mock server answers every get with the same example record. *)
Lemma mock_get_fixed (req : Mock.Request) :
  truthy (prop (Mock.req_query req) "id") = true →
  status (Mock.get req) = 200
  ∧ body (Mock.get req) !! "name" = Some (VStr "Example list").
Proof.
  intros Hid. unfold Mock.get. cbv zeta. rewrite Hid. by cbn.
Qed.

(** C6, as stated, fails on the mock server: the list just created under
    the name "Saturday Groceries" is returned by get as "Example list". *)
Lemma mock_get_ignores_created :
  body (Mock.app Samples.Number Samples.now Mock.Create
          (Samples.authenticated Samples.groceries ∅)) !! "id"
    = Some (VStr "list-1700000000000")
  ∧ body (Mock.app Samples.Number Samples.now Mock.Create
            (Samples.authenticated Samples.groceries ∅)) !! "name"
    = Some (VStr "Saturday Groceries")
  ∧ body (Mock.app Samples.Number Samples.now Mock.Get
            (Samples.authenticated ∅ {[ "id" := VStr "list-1700000000000" ]})) !! "name"
    = Some (VStr "Example list")
  ∧ body (Mock.app Samples.Number Samples.now Mock.Get
            (Samples.authenticated ∅ {[ "id" := VStr "list-1700000000000" ]})) !! "name"
    ≠ Some (VStr "Saturday Groceries").
Proof. repeat split. by vm_compute. Qed.

(** C6 (amended). In the database server, for every valid name X, a create
    followed by a get of the returned identifier (the store answering both
    calls, the generated identifier being new and well-formed) yields a
    record whose name is X trimmed, whose state is ["active"], and whose
    members contain the entry with role ["owner"] and the identity of the
    caller, which that server fixes to [MOCK_OWNER]. The get of the mock
    server returns its example record whatever was created. *)
Theorem create_then_get
    (isValidObjectId : string -> bool) (castObjectId : string -> option string)
    (env env' : Model.Env) (st : Model.Collection) (req : Mongo.Request) (s : string) :
  prop (Mongo.req_body req) "name" = VStr s →
  trim s ≠ "" →
  Model.healthy env = true →
  Model.healthy env' = true →
  Model.lookup_id (Model.newObjectId env) st = None →
  isValidObjectId (Model.newObjectId env) = true →
  castObjectId (Model.newObjectId env) = Some (Model.newObjectId env) →
  (∃ (i : string) (ms : list value),
      let created := Mongo.create env st req in
      let got :=
        Mongo.get isValidObjectId castObjectId env' created.2
          {| Mongo.params_id := i; Mongo.req_body := ∅ |} in
      body created.1 !! "id" = Some (VStr i)
      ∧ status got.1 = 200
      ∧ body got.1 !! "name" = Some (VStr (trim s))
      ∧ body got.1 !! "state" = Some (VStr "active")
      ∧ body got.1 !! "members" = Some (VArr ms)
      ∧ VObj (list_to_map [("uuIdentity", VStr Mongo.MOCK_OWNER);
                           ("role", VStr "owner")]) ∈ ms)
  ∧ (∀ mreq : Mock.Request,
       truthy (prop (Mock.req_query mreq) "id") = true →
       body (Mock.get mreq) !! "name" = Some (VStr "Example list")).
Proof.
  intros Hname Hs Hup Hup' Hfresh Hvalid Hcast. split.
  - exists (Model.newObjectId env). eexists. cbv zeta.
    rewrite (mongo_create_valid env st req s Hname Hs Hup Hfresh).
    cbn [fst snd].
    rewrite (mongo_get_found isValidObjectId castObjectId env' _ _
               (Model.newObjectId env) (created (Model.newObjectId env) (trim s)));
      [| done | done | by apply lookup_id_app_new | done ].
    cbn [fst status body]. repeat split.
    apply list_elem_of_here.
  - intros mreq Hid. by apply mock_get_fixed.
Qed.

Lemma create_then_get_witness :
  ∃ (i : string) (ms : list value),
    body (Mongo.create Samples.env Samples.collection Samples.post_groceries).1 !! "id"
      = Some (VStr i)
    ∧ body (Mongo.get Samples.isValidObjectId Samples.castObjectId Samples.env
              (Mongo.create Samples.env Samples.collection Samples.post_groceries).2
              {| Mongo.params_id := i; Mongo.req_body := ∅ |}).1 !! "name"
      = Some (VStr "Saturday Groceries").
Proof.
  destruct (create_then_get Samples.isValidObjectId Samples.castObjectId
              Samples.env Samples.env Samples.collection Samples.post_groceries
              " Saturday Groceries ")
    as [(i & ms & Hid & _ & Hgot & _) _];
    [ reflexivity | by vm_compute | reflexivity | reflexivity | reflexivity
    | reflexivity | reflexivity | ].
  exists i, ms. split; [exact Hid | exact Hgot].
Defined.

(** ** Update without fields *)

Lemma update_checks_nothing (isValidObjectId : string -> bool) (id : string) :
  isValidObjectId id = true →
  Mongo.update_checks isValidObjectId id VUndefined VUndefined ∅ = ∅.
Proof. intros Hvalid. unfold Mongo.update_checks. by rewrite Hvalid. Qed.

(** C10. In the database server, name and state are optional in update: for
    every request whose identifier is well-formed and resolves to a stored
    document, and whose body supplies neither [name] nor [state], the
    validation passes and (the store answering) the response is a 200 that
    carries the document's name, state, ownerUuIdentity, members and items
    as they were; the collection is unchanged. *)
Theorem update_without_fields_changes_nothing
    (isValidObjectId : string -> bool) (castObjectId : string -> option string)
    (env : Model.Env) (st : Model.Collection) (req : Mongo.Request)
    (oid : string) (l : Model.ShoppingList) :
  isValidObjectId (Mongo.params_id req) = true →
  castObjectId (Mongo.params_id req) = Some oid →
  Model.lookup_id oid st = Some l →
  prop (Mongo.req_body req) "name" = VUndefined →
  prop (Mongo.req_body req) "state" = VUndefined →
  Model.healthy env = true →
  Mongo.update_checks isValidObjectId (Mongo.params_id req)
    (prop (Mongo.req_body req) "name") (prop (Mongo.req_body req) "state") ∅ = ∅
  ∧ Mongo.update isValidObjectId castObjectId env st req
    = (Response 200
         (list_to_map
            [("id", VStr (Model._id l));
             ("name", VStr (Model.name l));
             ("state", VStr (Model.state l));
             ("ownerUuIdentity", VStr (Model.ownerUuIdentity l));
             ("members", VArr (Model.member_json <$> Model.members l));
             ("items", VArr (Model.item_json <$> Model.items l));
             ("uuAppErrorMap", VObj ∅)]),
       st)
  ∧ Model.lookup_id oid (Mongo.update isValidObjectId castObjectId env st req).2
    = Some l.
Proof.
  intros Hvalid Hcast Hsome Hname Hstate Hup.
  assert (Mongo.update isValidObjectId castObjectId env st req
          = (Response 200 (Mongo.buildResponse (Mongo.list_dto l) None), st)) as Hupd.
  { unfold Mongo.update, Model.findByIdAndUpdate. cbv zeta.
    rewrite Hname, Hstate, (update_checks_nothing _ _ Hvalid), has_keys_empty.
    cbn [is_defined]. rewrite Hup, Hcast.
    unfold Model.string_field. rewrite !lookup_empty. cbn [from_option andb].
    rewrite Hsome, apply_no_updates, (replace_id_found oid st l Hsome).
    reflexivity. }
  rewrite Hname, Hstate, Hupd. cbn [snd].
  split; [by apply update_checks_nothing |]. split; [| done].
  reflexivity.
Qed.

Lemma update_without_fields_changes_nothing_witness :
  Mongo.update Samples.isValidObjectId Samples.castObjectId
    Samples.env Samples.collection Samples.put_nothing
  = (Response 200
       (Mongo.buildResponse (Mongo.list_dto Samples.stored) None),
     Samples.collection).
Proof.
  exact (proj1 (proj2 (update_without_fields_changes_nothing
                         Samples.isValidObjectId Samples.castObjectId
                         Samples.env Samples.collection Samples.put_nothing
                         "65f1a2b3c4d5e6f708192a3a" Samples.stored
                         eq_refl eq_refl eq_refl eq_refl eq_refl eq_refl))).
Defined.

(** ** Invariants of the collection *)

Lemma replace_id_ids (new : Model.ShoppingList) (st : Model.Collection) :
  Model._id <$> Model.replace_id new st = Model._id <$> st.
Proof.
  induction st as [| x st IH]; cbn [Model.replace_id]; [done |].
  destruct (String.eqb_spec (Model._id x) (Model._id new)) as [Heq | _].
  - cbn [fmap list_fmap]. by rewrite Heq.
  - cbn [fmap list_fmap] in *. by rewrite IH.
Qed.

Lemma remove_id_sublist (oid : string) (st : Model.Collection) :
  sublist (Model._id <$> Model.remove_id oid st) (Model._id <$> st).
Proof.
  induction st as [| x st IH]; cbn [Model.remove_id]; [done |].
  destruct (String.eqb (Model._id x) oid); cbn [fmap list_fmap] in *.
  - by apply sublist_cons.
  - by apply sublist_skip.
Qed.

(** No handler of the database server breaks the uniqueness of identifiers. *)
Lemma mongo_handle_unique_ids
    (isValidObjectId : string -> bool) (castObjectId : string -> option string)
    (c : Mongo.command) (env : Model.Env) (st : Model.Collection)
    (req : Mongo.Request) :
  unique_ids st →
  unique_ids (Mongo.handle isValidObjectId castObjectId c env st req).2.
Proof.
  intros Huniq. destruct c; unfold Mongo.handle.
  - unfold Mongo.list. by case_match.
  - unfold Mongo.get. cbv zeta. by repeat case_match.
  - unfold Mongo.create, Model.create. cbv zeta.
    repeat case_match; simplify_eq; cbn [snd]; try done.
    unfold unique_ids. rewrite fmap_app. apply NoDup_app. split; [done |].
    split; [| apply NoDup_singleton].
    intros oid Hin Hnew. apply list_elem_of_singleton in Hnew. cbn in Hnew. subst oid.
    match goal with
    | H : _ && _ && negb (bool_decide (is_Some ?o)) = true |- _ =>
        destruct o eqn:Hfind; [by rewrite bool_decide_eq_true_2, andb_false_r in H |]
    end.
    by apply lookup_id_none in Hfind.
  - unfold Mongo.update, Model.findByIdAndUpdate. cbv zeta.
    repeat case_match; simplify_eq; cbn [snd]; try done.
    all: unfold unique_ids; by rewrite replace_id_ids.
  - unfold Mongo.delete, Model.findByIdAndDelete. cbv zeta.
    repeat case_match; simplify_eq; cbn [snd]; try done.
    unfold unique_ids. eapply sublist_NoDup; [done | apply remove_id_sublist].
Qed.

(** ** The deployed mock server *)

(** The middleware grants the profiles User and ShoppingListOwner, so every
    authorization check of the deployed mock server passes. *)
Lemma app_passes_every_gate (c : Mock.command) (required : list string)
    (req : Mock.Request) :
  Mock.requiredProfiles c = Some required →
  Mock.hasAnyProfile (Mock.authenticate req) required = true.
Proof. intros Hreq. destruct c; cbn in Hreq; by simplify_eq. Qed.

(** ** The scenarios of the test suite

    The cases of the repository's endpoint tests, run on the embedding of
    the database server with [Samples.collection] as the stored data. *)

Section Scenarios.

Let run (c : Mongo.command) (id : string) (b : obj) : response * Model.Collection :=
  Mongo.handle Samples.isValidObjectId Samples.castObjectId c
    Samples.env Samples.collection
    {| Mongo.params_id := id; Mongo.req_body := b |}.

Let error_keys (r : response) : list string :=
  match body r !! "uuAppErrorMap" with
  | Some (VObj em) => (map_to_list em).*1
  | _ => []
  end.

Example scenario_create_happy_day :
  let r := (run Mongo.Create "" {[ "name" := VStr "Saturday Groceries" ]}).1 in
  status r = 201
  ∧ body r !! "id" = Some (VStr "65f1a2b3c4d5e6f708192a3b")
  ∧ body r !! "name" = Some (VStr "Saturday Groceries")
  ∧ body r !! "state" = Some (VStr "active")
  ∧ body r !! "uuAppErrorMap" = Some (VObj ∅).
Proof. by vm_compute. Qed.

Example scenario_create_missing_name :
  let r := (run Mongo.Create "" ∅).1 in
  status r = 400 ∧ error_keys r = ["shoppingList/create/invalidName"].
Proof. by vm_compute. Qed.

Example scenario_list_happy_day :
  let r := (run Mongo.List "" ∅).1 in
  status r = 200
  ∧ body r !! "itemList"
    = Some (VArr [VObj (list_to_map
                          [("id", VStr "65f1a2b3c4d5e6f708192a3a");
                           ("name", VStr "Old name");
                           ("state", VStr "active");
                           ("ownerUuIdentity", VStr "uu5:1234-5678");
                           ("itemCount", num_of_Z 1)])])
  ∧ body r !! "uuAppErrorMap" = Some (VObj ∅).
Proof. by vm_compute. Qed.

Example scenario_get_happy_day :
  let r := (run Mongo.Get "65f1a2b3c4d5e6f708192a3a" ∅).1 in
  status r = 200
  ∧ body r !! "id" = Some (VStr "65f1a2b3c4d5e6f708192a3a")
  ∧ body r !! "name" = Some (VStr "Old name")
  ∧ body r !! "uuAppErrorMap" = Some (VObj ∅).
Proof. by vm_compute. Qed.

Example scenario_get_not_found :
  let r := (run Mongo.Get "65f1a2b3c4d5e6f708192aff" ∅).1 in
  status r = 404 ∧ error_keys r = ["shoppingList/get/notFound"].
Proof. by vm_compute. Qed.

Example scenario_update_happy_day :
  let r := (run Mongo.Update "65f1a2b3c4d5e6f708192a3a"
              (list_to_map [("name", VStr "New name"); ("state", VStr "archived")])).1 in
  status r = 200
  ∧ body r !! "name" = Some (VStr "New name")
  ∧ body r !! "state" = Some (VStr "archived")
  ∧ body r !! "uuAppErrorMap" = Some (VObj ∅).
Proof. by vm_compute. Qed.

Example scenario_update_invalid_state :
  let r := (run Mongo.Update "65f1a2b3c4d5e6f708192a3a"
              {[ "state" := VStr "deleted" ]}).1 in
  status r = 400 ∧ error_keys r = ["shoppingList/update/invalidState"].
Proof. by vm_compute. Qed.

Example scenario_delete_happy_day :
  let '(r, st) := run Mongo.Delete "65f1a2b3c4d5e6f708192a3a" ∅ in
  status r = 200
  ∧ body r !! "deleted" = Some (VBool true)
  ∧ body r !! "uuAppErrorMap" = Some (VObj ∅)
  ∧ Model.findById Samples.castObjectId Samples.env st "65f1a2b3c4d5e6f708192a3a"
    = Model.Resolved None.
Proof. by vm_compute. Qed.

Example scenario_delete_not_found :
  let r := (run Mongo.Delete "65f1a2b3c4d5e6f708192aff" ∅).1 in
  status r = 404 ∧ error_keys r = ["shoppingList/delete/notFound"].
Proof. by vm_compute. Qed.

End Scenarios.


(** * Further properties *)

(** ** The mock server *)

(** The authorization test succeeds exactly when the caller holds one of
    the required profiles; it fails whenever either list is empty. *)
Theorem hasAnyProfile_common_profile (req : Mock.Request) (required : list string) :
  (Mock.hasAnyProfile req required = true
   ↔ ∃ p, p ∈ required ∧ p ∈ Mock.profiles (Mock.user req))
  ∧ Mock.hasAnyProfile req [] = false
  ∧ Mock.hasAnyProfile
      (as_user {| Mock.uuIdentity := Mock.uuIdentity (Mock.user req);
                  Mock.profiles := [] |} req) required = false.
Proof.
  split; [apply hasAnyProfile_true |]. split; [done |].
  apply hasAnyProfile_false. intros p _ Hp. cbn in Hp. by apply elem_of_nil in Hp.
Qed.

(** Behind its middleware the mock server never answers 403, and the
    caller a request announces has no influence on the answer. *)
Theorem deployed_mock_never_forbids
    (Number : value -> number) (now : Z) (c : Mock.command) (req : Mock.Request) :
  status (Mock.app Number now c req) ≠ 403
  ∧ ∀ u : Mock.User,
      Mock.app Number now c (as_user u req) = Mock.app Number now c req.
Proof.
  split; [| done].
  unfold Mock.app.
  destruct (Mock.requiredProfiles c) as [required |] eqn:Hreq.
  - apply (authorized_not_403 _ _ _ required); [done |].
    by apply (app_passes_every_gate c).
  - destruct c; try discriminate Hreq; cbn [Mock.handle].
    + unfold Mock.get. cbv zeta. by case_match.
    + unfold Mock.list. cbv zeta. by case_match.
    + unfold Mock.leave. cbv zeta. by case_match.
Qed.

(** The commands without required profiles (get, list, leave) answer the
    same whatever the profiles of the caller, and never with 403. *)
Theorem ungated_commands_ignore_profiles
    (Number : value -> number) (now : Z) (c : Mock.command) (req : Mock.Request)
    (ps : list string) :
  Mock.requiredProfiles c = None →
  Mock.handle Number now c
    (as_user {| Mock.uuIdentity := Mock.uuIdentity (Mock.user req);
                Mock.profiles := ps |} req)
  = Mock.handle Number now c req
  ∧ status (Mock.handle Number now c req) ≠ 403.
Proof.
  intros Hreq. destruct c; try discriminate Hreq; cbn [Mock.handle].
  - split; [done |]. unfold Mock.get. cbv zeta. by case_match.
  - split; [done |]. unfold Mock.list. cbv zeta. by case_match.
  - split; [done |]. unfold Mock.leave. cbv zeta. by case_match.
Qed.

Lemma ungated_commands_ignore_profiles_witness :
  Mock.handle Samples.Number Samples.now Mock.Leave
    (as_user {| Mock.uuIdentity := "uu5:0000-0000";
                Mock.profiles := [Mock.PROFILES.AUTHORITIES] |} Cases.leave_list)
  = Mock.handle Samples.Number Samples.now Mock.Leave Cases.leave_list.
Proof.
  exact (proj1 (ungated_commands_ignore_profiles Samples.Number Samples.now
                  Mock.Leave Cases.leave_list [Mock.PROFILES.AUTHORITIES] eq_refl)).
Defined.

Lemma identity_test_spec (v : value) :
  negb (truthy v) || negb (is_string v) = negb (is_nonempty_string v).
Proof.
  destruct v as [| | b | n | s | l | m]; cbn [is_string negb orb is_nonempty_string];
    try by rewrite orb_true_r.
  cbn [truthy]. by rewrite orb_false_r.
Qed.

Ltac member_checks :=
  split; [| split; [| split; [reflexivity | split; [reflexivity |]]]];
  [ split; intros H; try done; by apply is_Some_alt in H
  | split; intros H; try done; by apply is_Some_alt in H
  | first [ by intros _ | intros H; by vm_compute in H ] ].

(** addMember and removeMember check both of their fields before they
    answer: once the caller is authorized, the error map has one key per
    failing field and no other, and the request is refused with 400 exactly
    when the map is not empty. addMember wants [uuIdentity] to be a
    non-empty string, removeMember only wants it to be truthy. *)
Theorem member_commands_report_every_invalid_field (req : Mock.Request) :
  Mock.hasAnyProfile req [Mock.PROFILES.OWNER; Mock.PROFILES.AUTHORITIES] = true →
  (∃ em : obj,
      (is_Some (em !! "shoppingList/addMember/invalidListId")
       ↔ truthy (prop (Mock.req_body req) "listId") = false)
      ∧ (is_Some (em !! "shoppingList/addMember/invalidUuIdentity")
         ↔ is_nonempty_string (prop (Mock.req_body req) "uuIdentity") = false)
      ∧ size em
        = (b2n (negb (truthy (prop (Mock.req_body req) "listId")))
           + b2n (negb (is_nonempty_string (prop (Mock.req_body req) "uuIdentity"))))%nat
      ∧ status (Mock.addMember req) = (if has_keys em then 400 else 200)
      ∧ (has_keys em = true →
         Mock.addMember req = Response 400 {[ "uuAppErrorMap" := VObj em ]}))
  ∧ (∃ em : obj,
      (is_Some (em !! "shoppingList/removeMember/invalidListId")
       ↔ truthy (prop (Mock.req_body req) "listId") = false)
      ∧ (is_Some (em !! "shoppingList/removeMember/invalidUuIdentity")
         ↔ truthy (prop (Mock.req_body req) "uuIdentity") = false)
      ∧ size em
        = (b2n (negb (truthy (prop (Mock.req_body req) "listId")))
           + b2n (negb (truthy (prop (Mock.req_body req) "uuIdentity"))))%nat
      ∧ status (Mock.removeMember req) = (if has_keys em then 400 else 200)
      ∧ (has_keys em = true →
         Mock.removeMember req = Response 400 {[ "uuAppErrorMap" := VObj em ]})).
Proof.
  intros Hauth. split.
  - unfold Mock.addMember. cbv zeta. rewrite Hauth, identity_test_spec. cbn [negb].
    destruct (truthy (prop (Mock.req_body req) "listId")),
      (is_nonempty_string (prop (Mock.req_body req) "uuIdentity")); cbn [negb b2n].
    1: exists ∅.
    2: eexists (<["shoppingList/addMember/invalidUuIdentity" := _]> ∅).
    3: eexists (<["shoppingList/addMember/invalidListId" := _]> ∅).
    4: eexists (<["shoppingList/addMember/invalidUuIdentity" := _]>
                  (<["shoppingList/addMember/invalidListId" := _]> ∅)).
    all: member_checks.
  - unfold Mock.removeMember. cbv zeta. rewrite Hauth. cbn [negb].
    destruct (truthy (prop (Mock.req_body req) "listId")),
      (truthy (prop (Mock.req_body req) "uuIdentity")); cbn [negb b2n].
    1: exists ∅.
    2: eexists (<["shoppingList/removeMember/invalidUuIdentity" := _]> ∅).
    3: eexists (<["shoppingList/removeMember/invalidListId" := _]> ∅).
    4: eexists (<["shoppingList/removeMember/invalidUuIdentity" := _]>
                  (<["shoppingList/removeMember/invalidListId" := _]> ∅)).
    all: member_checks.
Qed.

Lemma member_commands_report_every_invalid_field_witness :
  status (Mock.addMember Cases.numeric_identity) = 400
  ∧ status (Mock.removeMember Cases.numeric_identity) = 200.
Proof.
  destruct (member_commands_report_every_invalid_field Cases.numeric_identity eq_refl)
    as [(em1 & _ & _ & Hs1 & Hst1 & _) (em2 & _ & _ & Hs2 & Hst2 & _)].
  unfold has_keys in Hst1, Hst2. rewrite Hs1 in Hst1. rewrite Hs2 in Hst2.
  split; [exact Hst1 | exact Hst2].
Defined.

(** addMember does not check [role]: a valid request is answered 200 with
    the member it was given, the role being the one of the request when it
    is truthy and ["member"] otherwise (absent, null, empty string, zero). *)
Theorem addMember_role_default (req : Mock.Request) :
  Mock.hasAnyProfile req [Mock.PROFILES.OWNER; Mock.PROFILES.AUTHORITIES] = true →
  truthy (prop (Mock.req_body req) "listId") = true →
  is_nonempty_string (prop (Mock.req_body req) "uuIdentity") = true →
  status (Mock.addMember req) = 200
  ∧ body (Mock.addMember req) !! "listId" = Some (prop (Mock.req_body req) "listId")
  ∧ body (Mock.addMember req) !! "member"
    = Some (VObj (list_to_map
                    [("uuIdentity", prop (Mock.req_body req) "uuIdentity");
                     ("role",
                       if truthy (prop (Mock.req_body req) "role")
                       then prop (Mock.req_body req) "role"
                       else VStr "member")]))
  ∧ body (Mock.addMember req) !! "uuAppErrorMap" = Some (VObj ∅).
Proof.
  intros Hauth Hlist Hident.
  unfold Mock.addMember. cbv zeta.
  rewrite Hauth, identity_test_spec, Hlist, Hident. cbn [negb].
  rewrite has_keys_empty. unfold js_or. by repeat split.
Qed.

Lemma addMember_role_default_witness :
  body (Mock.addMember Cases.add_without_role) !! "member"
  = Some (VObj (list_to_map [("uuIdentity", VStr "uu5:8765-4321");
                             ("role", VStr "member")])).
Proof.
  exact (proj1 (proj2 (proj2 (addMember_role_default Cases.add_without_role
                                eq_refl eq_refl eq_refl)))).
Defined.

(** The name test of the database server's create. *)
Lemma required_name_test_spec (v : value) :
  negb (truthy v) || negb (is_string v) || negb (truthy (VStr (trim_value v)))
  = negb (spec_name_required v).
Proof.
  destruct v as [| | b | n | s | l | m]; cbn [is_string negb orb spec_name_required].
  1-4, 6-7: by rewrite orb_true_r.
  cbn [truthy trim_value]. rewrite !negb_involutive, orb_false_r.
  destruct (String.eqb_spec s "") as [-> | _]; [done |].
  by cbn [orb].
Qed.

(** A create whose [name] is missing, not a string, empty or made of white
    space only is refused with 400 and the single key
    ["shoppingList/create/invalidName"], the entry carrying the value
    received. The database server refuses it without calling the store:
    the answer is the same whether or not the store responds, and the
    collection is unchanged. *)
Theorem create_rejects_invalid_name
    (now : Z) (env : Model.Env) (st : Model.Collection)
    (mreq : Mock.Request) (req : Mongo.Request) :
  Mock.hasAnyProfile mreq [Mock.PROFILES.USER; Mock.PROFILES.AUTHORITIES] = true →
  spec_name_required (prop (Mock.req_body mreq) "name") = false →
  spec_name_required (prop (Mongo.req_body req) "name") = false →
  Mock.create now mreq
  = Response 400
      {[ "uuAppErrorMap" :=
           VObj {[ "shoppingList/create/invalidName" :=
                     VObj (list_to_map
                             [("type", VStr "error");
                              ("message",
                                VStr "name is required and must be a non-empty string.");
                              ("paramMap",
                                VObj {[ "name" := prop (Mock.req_body mreq) "name" ]})]) ]} ]}
  ∧ Mongo.create env st req
    = (Response 400
         {[ "uuAppErrorMap" :=
              VObj {[ "shoppingList/create/invalidName" :=
                        VObj (list_to_map
                                [("type", VStr "error");
                                 ("message",
                                   VStr "name is required and must be a non-empty string.");
                                 ("paramMap",
                                   VObj {[ "name" := prop (Mongo.req_body req) "name" ]})]) ]} ]},
       st).
Proof.
  intros Hauth Hmock Hmongo. split.
  - unfold Mock.create. cbv zeta.
    by rewrite Hauth, blank_or_not_string_spec, Hmock.
  - unfold Mongo.create. cbv zeta.
    by rewrite required_name_test_spec, Hmongo.
Qed.

Lemma create_rejects_invalid_name_witness :
  status (Mock.create Samples.now (Samples.authenticated ∅ ∅)) = 400
  ∧ Mongo.create Cases.down Samples.collection Cases.post_nothing
    = Mongo.create Samples.env Samples.collection Cases.post_nothing.
Proof.
  destruct (create_rejects_invalid_name Samples.now Cases.down Samples.collection
              (Samples.authenticated ∅ ∅) Cases.post_nothing)
    as [Hmock Hdown]; [reflexivity | reflexivity | reflexivity |].
  destruct (create_rejects_invalid_name Samples.now Samples.env Samples.collection
              (Samples.authenticated ∅ ∅) Cases.post_nothing)
    as [_ Hup]; [reflexivity | reflexivity | reflexivity |].
  split.
  - by rewrite Hmock.
  - by rewrite Hdown, Hup.
Defined.

(** The list command of the mock server does no paging: every request it
    accepts is answered with the same two lists and the total 2, next to
    the page numbers it was given (0 and 50 converted when they are absent
    or null). It refuses a request exactly when a page number converts to
    NaN. *)
Theorem mock_list_is_not_paged (Number : value -> number) (req : Mock.Request) :
  let pageIndex := Number (nullish (prop (Mock.req_query req) "pageIndex") (num_of_Z 0)) in
  let pageSize := Number (nullish (prop (Mock.req_query req) "pageSize") (num_of_Z 50)) in
  status (Mock.list Number req) = (if isNaN pageIndex || isNaN pageSize then 400 else 200)
  ∧ (status (Mock.list Number req) = 200 →
     body (Mock.list Number req) !! "itemList" = Some mock_item_list
     ∧ body (Mock.list Number req) !! "pageInfo"
       = Some (VObj (list_to_map [("pageIndex", VNum pageIndex);
                                  ("pageSize", VNum pageSize);
                                  ("total", num_of_Z 2)])))
  ∧ (prop (Mock.req_query req) "pageIndex" = VUndefined →
     pageIndex = Number (num_of_Z 0))
  ∧ (prop (Mock.req_query req) "pageSize" = VNull →
     pageSize = Number (num_of_Z 50)).
Proof.
  cbv zeta. unfold Mock.list. cbv zeta.
  destruct (isNaN _ || isNaN _).
  - repeat split; try done; by intros ->.
  - repeat split; try done; by intros ->.
Qed.

(** A request for the second page of size one still gets both lists. *)
Lemma mock_list_is_not_paged_witness :
  status (Mock.list Samples.Number Cases.second_page) = 200
  ∧ body (Mock.list Samples.Number Cases.second_page) !! "itemList"
    = Some mock_item_list.
Proof.
  destruct (mock_list_is_not_paged Samples.Number Cases.second_page)
    as (Hstatus & Hlist & _).
  split; [exact Hstatus | by apply Hlist].
Defined.

(** ** Trimming *)

Lemma trimEnd_cons (c : ascii) (s : string) :
  trimEnd (String c s)
  = match trimEnd s with
    | EmptyString => if is_white_space c then EmptyString else String c EmptyString
    | t => String c t
    end.
Proof. reflexivity. Qed.

Lemma trimEnd_idempotent (s : string) : trimEnd (trimEnd s) = trimEnd s.
Proof.
  induction s as [| c s IH]; [done |]. rewrite trimEnd_cons.
  destruct (trimEnd s) as [| d t] eqn:Hend.
  - destruct (is_white_space c) eqn:Hc; [done |]. rewrite trimEnd_cons. cbn [trimEnd].
    by rewrite Hc.
  - by rewrite trimEnd_cons, IH.
Qed.

Lemma trimEnd_keeps_head (c : ascii) (s : string) :
  is_white_space c = false → ∃ t, trimEnd (String c s) = String c t.
Proof.
  intros Hc. cbn [trimEnd]. destruct (trimEnd s) as [| d t].
  - rewrite Hc. by eexists.
  - by eexists.
Qed.

Lemma trimStart_head (s : string) :
  trimStart s = "" ∨ ∃ c t, trimStart s = String c t ∧ is_white_space c = false.
Proof.
  induction s as [| c s IH]; [by left |]. cbn [trimStart].
  destruct (is_white_space c) eqn:Hc; [done |]. right. by exists c, s.
Qed.

(** Trimming a trimmed string changes nothing. *)
Lemma trim_idempotent (s : string) : trim (trim s) = trim s.
Proof.
  unfold trim. destruct (trimStart_head s) as [-> | (c & t & -> & Hc)]; [done |].
  destruct (trimEnd_keeps_head c t Hc) as [t' Ht']. rewrite Ht'.
  cbn [trimStart]. rewrite Hc, <- Ht'. apply trimEnd_idempotent.
Qed.

(** ** The collection, continued *)

Lemma lookup_id_app (oid : string) (st : Model.Collection) (d : Model.ShoppingList) :
  Model.lookup_id oid (st ++ [d])
  = match Model.lookup_id oid st with
    | Some l => Some l
    | None => if String.eqb (Model._id d) oid then Some d else None
    end.
Proof.
  unfold Model.lookup_id.
  induction st as [| x st IH]; cbn [app List.find]; [done |].
  by destruct (String.eqb (Model._id x) oid).
Qed.

Lemma lookup_id_replace_same (st : Model.Collection) (l new : Model.ShoppingList) :
  Model.lookup_id (Model._id new) st = Some l →
  Model.lookup_id (Model._id new) (Model.replace_id new st) = Some new.
Proof.
  unfold Model.lookup_id.
  induction st as [| x st IH]; cbn [Model.replace_id List.find]; [done |].
  destruct (String.eqb (Model._id x) (Model._id new)) eqn:Hx; cbn [List.find].
  - by rewrite String.eqb_refl.
  - by rewrite Hx.
Qed.

Lemma lookup_id_replace_other (oid : string) (st : Model.Collection)
    (new : Model.ShoppingList) :
  oid ≠ Model._id new →
  Model.lookup_id oid (Model.replace_id new st) = Model.lookup_id oid st.
Proof.
  intros Hne. unfold Model.lookup_id.
  induction st as [| x st IH]; cbn [Model.replace_id List.find]; [done |].
  destruct (String.eqb_spec (Model._id x) (Model._id new)) as [Hx | Hx]; cbn [List.find].
  - rewrite Hx. by destruct (String.eqb_spec (Model._id new) oid) as [<- | _].
  - by rewrite IH.
Qed.

Lemma length_replace_id (new : Model.ShoppingList) (st : Model.Collection) :
  length (Model.replace_id new st) = length st.
Proof.
  induction st as [| x st IH]; cbn [Model.replace_id]; [done |].
  destruct (String.eqb (Model._id x) (Model._id new)); cbn [length]; by rewrite ?IH.
Qed.

Lemma lookup_id_remove_other (oid oid' : string) (st : Model.Collection) :
  oid' ≠ oid →
  Model.lookup_id oid' (Model.remove_id oid st) = Model.lookup_id oid' st.
Proof.
  intros Hne. unfold Model.lookup_id.
  induction st as [| x st IH]; cbn [Model.remove_id List.find]; [done |].
  destruct (String.eqb_spec (Model._id x) oid) as [Hx | Hx]; cbn [List.find].
  - by destruct (String.eqb_spec (Model._id x) oid') as [Hx' | _]; [congruence |].
  - by rewrite IH.
Qed.

Lemma length_remove_id (oid : string) (st : Model.Collection) (l : Model.ShoppingList) :
  Model.lookup_id oid st = Some l →
  S (length (Model.remove_id oid st)) = length st.
Proof.
  unfold Model.lookup_id.
  induction st as [| x st IH]; cbn [Model.remove_id List.find]; [done |].
  destruct (String.eqb (Model._id x) oid); cbn [length]; [done |].
  intros Hfind. by rewrite IH.
Qed.

(** ** Update, continued *)

Lemma update_checks_pass (isValidObjectId : string -> bool) (id : string)
    (name state : value) :
  isValidObjectId id = true →
  spec_name_optional name = true →
  spec_state_optional state = true →
  Mongo.update_checks isValidObjectId id name state ∅ = ∅.
Proof.
  intros Hid Hname Hstate.
  destruct (mongo_update_checks_keys isValidObjectId id name state)
    as (_ & _ & _ & Hsize).
  rewrite Hid, Hname, Hstate in Hsize. by apply map_size_empty_iff.
Qed.

Lemma valid_state_spec (s : string) :
  spec_state_optional (VStr s) = Model.valid_state s.
Proof.
  pose proof (includes_states (VStr s)) as H.
  cbn [is_defined andb includes] in H. unfold Model.valid_state.
  by destruct (bool_decide _), (spec_state_optional _).
Qed.

(** What update does once its fields are accepted and the store answers. *)
Lemma mongo_update_accepted (isValidObjectId : string -> bool)
    (castObjectId : string -> option string)
    (env : Model.Env) (st : Model.Collection) (req : Mongo.Request) (oid : string) :
  isValidObjectId (Mongo.params_id req) = true →
  castObjectId (Mongo.params_id req) = Some oid →
  spec_name_optional (prop (Mongo.req_body req) "name") = true →
  spec_state_optional (prop (Mongo.req_body req) "state") = true →
  Model.healthy env = true →
  Mongo.update isValidObjectId castObjectId env st req
  = match Model.lookup_id oid st with
    | Some l =>
        let l' :=
          Model.apply_updates l (supplied_name (Mongo.req_body req))
            (supplied_state (Mongo.req_body req)) in
        (Response 200 (Mongo.buildResponse (Mongo.list_dto l') None),
         Model.replace_id l' st)
    | None =>
        (Response 404
           {[ "uuAppErrorMap" :=
                VObj {[ "shoppingList/update/notFound" :=
                          Mongo.error_entry "Shopping list not found."
                            {[ "id" := VStr (Mongo.params_id req) ]} ]} ]}, st)
    end.
Proof.
  intros Hid Hcast Hname Hstate Hup.
  unfold Mongo.update, Model.findByIdAndUpdate, supplied_name, supplied_state. cbv zeta.
  rewrite (update_checks_pass _ _ _ _ Hid Hname Hstate), has_keys_empty, Hup, Hcast.
  destruct (prop (Mongo.req_body req) "name") as [| | | | n | |] eqn:Hn;
    try discriminate Hname;
    destruct (prop (Mongo.req_body req) "state") as [| | | | s | |] eqn:Hs;
    try discriminate Hstate;
    cbn [is_defined trim_value]; unfold Model.string_field.
  - rewrite !lookup_empty. cbn [from_option andb].
    by destruct (Model.lookup_id oid st).
  - rewrite lookup_insert_ne, lookup_empty, lookup_insert_eq by done.
    rewrite valid_state_spec in Hstate. cbn [from_option andb]. rewrite Hstate.
    by destruct (Model.lookup_id oid st).
  - rewrite lookup_insert_eq, lookup_insert_ne, lookup_empty by done.
    cbn [spec_name_optional spec_name_required] in Hname.
    cbn [from_option andb]. unfold Model.valid_name. rewrite Hname.
    by destruct (Model.lookup_id oid st).
  - rewrite lookup_insert_ne, lookup_insert_eq, lookup_insert_eq by done.
    rewrite valid_state_spec in Hstate.
    cbn [spec_name_optional spec_name_required] in Hname.
    cbn [from_option andb]. unfold Model.valid_name. rewrite Hname, Hstate.
    by destruct (Model.lookup_id oid st).
Qed.

Lemma mongo_update_found
    (isValidObjectId : string -> bool) (castObjectId : string -> option string)
    (env : Model.Env) (st : Model.Collection) (req : Mongo.Request)
    (oid : string) (l : Model.ShoppingList) :
  isValidObjectId (Mongo.params_id req) = true →
  castObjectId (Mongo.params_id req) = Some oid →
  Model.lookup_id oid st = Some l →
  spec_name_optional (prop (Mongo.req_body req) "name") = true →
  spec_state_optional (prop (Mongo.req_body req) "state") = true →
  Model.healthy env = true →
  let l' :=
    Model.apply_updates l (supplied_name (Mongo.req_body req))
      (supplied_state (Mongo.req_body req)) in
  Mongo.update isValidObjectId castObjectId env st req
  = (Response 200 (Mongo.buildResponse (Mongo.list_dto l') None),
     Model.replace_id l' st)
  ∧ Model.lookup_id oid (Model.replace_id l' st) = Some l'.
Proof.
  intros Hid Hcast Hfind Hname Hstate Hup l'.
  rewrite (mongo_update_accepted _ _ env st req oid Hid Hcast Hname Hstate Hup), Hfind.
  split; [done |].
  pose proof (lookup_id_elem _ _ _ Hfind) as [_ Hl].
  assert (Model._id l' = oid) as Hl' by done.
  rewrite <- Hl' at 1. apply (lookup_id_replace_same st l l'). by rewrite Hl'.
Qed.

(** An accepted update of an existing document sets exactly the fields the
    body supplies (the name trimmed) and keeps the others; the response
    shows the document as it is stored afterwards; every other document,
    and the size of the collection, are untouched. *)
Theorem update_sets_supplied_fields_only
    (isValidObjectId : string -> bool) (castObjectId : string -> option string)
    (env : Model.Env) (st : Model.Collection) (req : Mongo.Request)
    (oid : string) (l : Model.ShoppingList) :
  isValidObjectId (Mongo.params_id req) = true →
  castObjectId (Mongo.params_id req) = Some oid →
  Model.lookup_id oid st = Some l →
  spec_name_optional (prop (Mongo.req_body req) "name") = true →
  spec_state_optional (prop (Mongo.req_body req) "state") = true →
  Model.healthy env = true →
  ∃ l' : Model.ShoppingList,
    (Mongo.update isValidObjectId castObjectId env st req).1
    = Response 200 (Mongo.buildResponse (Mongo.list_dto l') None)
    ∧ Model.lookup_id oid (Mongo.update isValidObjectId castObjectId env st req).2
      = Some l'
    ∧ Model.name l'
      = default (Model.name l) (supplied_name (Mongo.req_body req))
    ∧ Model.state l'
      = default (Model.state l) (supplied_state (Mongo.req_body req))
    ∧ Model._id l' = Model._id l
    ∧ Model.ownerUuIdentity l' = Model.ownerUuIdentity l
    ∧ Model.members l' = Model.members l
    ∧ Model.items l' = Model.items l
    ∧ (∀ oid' : string, oid' ≠ oid →
         Model.lookup_id oid' (Mongo.update isValidObjectId castObjectId env st req).2
         = Model.lookup_id oid' st)
    ∧ length (Mongo.update isValidObjectId castObjectId env st req).2 = length st.
Proof.
  intros Hid Hcast Hfind Hname Hstate Hup.
  rewrite (mongo_update_accepted _ _ env st req oid Hid Hcast Hname Hstate Hup), Hfind.
  cbv zeta. cbn [fst snd].
  pose proof (lookup_id_elem _ _ _ Hfind) as [_ Hl].
  eexists. split; [reflexivity |].
  split; [| repeat split; try done].
  - rewrite <- Hl at 1.
    apply (lookup_id_replace_same st l
             (Model.apply_updates l (supplied_name (Mongo.req_body req))
                (supplied_state (Mongo.req_body req)))).
    cbn [Model.apply_updates Model._id]. by rewrite Hl.
  - intros oid' Hne. apply lookup_id_replace_other.
    cbn [Model.apply_updates Model._id]. by rewrite Hl.
  - apply length_replace_id.
Qed.

Lemma update_sets_supplied_fields_only_witness :
  ∃ l' : Model.ShoppingList,
    Model.lookup_id "65f1a2b3c4d5e6f708192a3a"
      (Mongo.update Samples.isValidObjectId Samples.castObjectId Samples.env
         Cases.two_lists Cases.put_rename).2 = Some l'
    ∧ Model.name l' = "New name"
    ∧ Model.state l' = "active"
    ∧ Model.lookup_id "65f1a2b3c4d5e6f708192a3c"
        (Mongo.update Samples.isValidObjectId Samples.castObjectId Samples.env
           Cases.two_lists Cases.put_rename).2 = Some Cases.other.
Proof.
  destruct (update_sets_supplied_fields_only
              Samples.isValidObjectId Samples.castObjectId Samples.env
              Cases.two_lists Cases.put_rename
              "65f1a2b3c4d5e6f708192a3a" Samples.stored)
    as (l' & _ & Hfind & Hname & Hstate & _ & _ & _ & _ & Hother & _);
    [reflexivity | reflexivity | reflexivity | reflexivity | reflexivity
    | reflexivity |].
  exists l'. split; [exact Hfind |]. split; [exact Hname |]. split; [exact Hstate |].
  rewrite (Hother "65f1a2b3c4d5e6f708192a3c"); [reflexivity | discriminate].
Defined.

(** An accepted update of an identifier that resolves to no document is
    answered 404 with the single key ["shoppingList/update/notFound"]; it
    creates nothing and changes nothing. *)
Theorem update_of_missing_id_is_not_found
    (isValidObjectId : string -> bool) (castObjectId : string -> option string)
    (env : Model.Env) (st : Model.Collection) (req : Mongo.Request) (oid : string) :
  isValidObjectId (Mongo.params_id req) = true →
  castObjectId (Mongo.params_id req) = Some oid →
  Model.lookup_id oid st = None →
  spec_name_optional (prop (Mongo.req_body req) "name") = true →
  spec_state_optional (prop (Mongo.req_body req) "state") = true →
  Model.healthy env = true →
  Mongo.update isValidObjectId castObjectId env st req
  = (Response 404
       {[ "uuAppErrorMap" :=
            VObj {[ "shoppingList/update/notFound" :=
                      Mongo.error_entry "Shopping list not found."
                        {[ "id" := VStr (Mongo.params_id req) ]} ]} ]}, st).
Proof.
  intros Hid Hcast Hfind Hname Hstate Hup.
  by rewrite (mongo_update_accepted _ _ env st req oid Hid Hcast Hname Hstate Hup), Hfind.
Qed.

Lemma update_of_missing_id_is_not_found_witness :
  status (Mongo.update Samples.isValidObjectId Samples.castObjectId Samples.env
            Samples.collection
            {| Mongo.params_id := "65f1a2b3c4d5e6f708192aff";
               Mongo.req_body := {[ "name" := VStr "New name" ]} |}).1 = 404.
Proof.
  rewrite (update_of_missing_id_is_not_found
             Samples.isValidObjectId Samples.castObjectId Samples.env
             Samples.collection
             {| Mongo.params_id := "65f1a2b3c4d5e6f708192aff";
                Mongo.req_body := {[ "name" := VStr "New name" ]} |}
             "65f1a2b3c4d5e6f708192aff");
    reflexivity.
Defined.

(** Update, then get: a get of the same identifier after an accepted update
    returns the document with the supplied fields in place. *)
Theorem update_then_get
    (isValidObjectId : string -> bool) (castObjectId : string -> option string)
    (env env' : Model.Env) (st : Model.Collection) (req : Mongo.Request)
    (oid : string) (l : Model.ShoppingList) :
  isValidObjectId (Mongo.params_id req) = true →
  castObjectId (Mongo.params_id req) = Some oid →
  Model.lookup_id oid st = Some l →
  spec_name_optional (prop (Mongo.req_body req) "name") = true →
  spec_state_optional (prop (Mongo.req_body req) "state") = true →
  Model.healthy env = true →
  Model.healthy env' = true →
  let st1 := (Mongo.update isValidObjectId castObjectId env st req).2 in
  let got := (Mongo.get isValidObjectId castObjectId env' st1 req).1 in
  got = (Mongo.update isValidObjectId castObjectId env st req).1
  ∧ status got = 200
  ∧ body got !! "name"
    = Some (VStr (default (Model.name l) (supplied_name (Mongo.req_body req))))
  ∧ body got !! "state"
    = Some (VStr (default (Model.state l) (supplied_state (Mongo.req_body req))))
  ∧ body got !! "ownerUuIdentity" = Some (VStr (Model.ownerUuIdentity l)).
Proof.
  intros Hid Hcast Hfind Hname Hstate Hup Hup'. cbv zeta.
  destruct (mongo_update_found isValidObjectId castObjectId env st req
              oid l Hid Hcast Hfind Hname Hstate Hup) as [-> Hstored].
  cbn [fst snd].
  by rewrite (mongo_get_found isValidObjectId castObjectId env' _ req oid _
                Hid Hcast Hstored Hup').
Qed.

Lemma update_then_get_witness :
  body (Mongo.get Samples.isValidObjectId Samples.castObjectId Samples.env
          (Mongo.update Samples.isValidObjectId Samples.castObjectId Samples.env
             Cases.two_lists Cases.put_rename).2 Cases.put_rename).1 !! "name"
  = Some (VStr "New name").
Proof.
  destruct (update_then_get Samples.isValidObjectId Samples.castObjectId
              Samples.env Samples.env Cases.two_lists Cases.put_rename
              "65f1a2b3c4d5e6f708192a3a" Samples.stored)
    as (_ & _ & Hname & _);
    [reflexivity | reflexivity | reflexivity | reflexivity | reflexivity
    | reflexivity | reflexivity |].
  exact Hname.
Defined.

(** ** Delete, continued *)

(** A delete of an existing document answers 200 with its identifier and
    [deleted: true]; with unique identifiers the document can no longer be
    found, every other document still can, and the collection has one
    document less. *)
Theorem delete_removes_exactly_one
    (isValidObjectId : string -> bool) (castObjectId : string -> option string)
    (env : Model.Env) (st : Model.Collection) (req : Mongo.Request)
    (oid : string) (l : Model.ShoppingList) :
  unique_ids st →
  isValidObjectId (Mongo.params_id req) = true →
  castObjectId (Mongo.params_id req) = Some oid →
  Model.lookup_id oid st = Some l →
  Model.healthy env = true →
  let st1 := (Mongo.delete isValidObjectId castObjectId env st req).2 in
  (Mongo.delete isValidObjectId castObjectId env st req).1
  = Response 200
      (list_to_map [("id", VStr oid); ("deleted", VBool true);
                    ("uuAppErrorMap", VObj ∅)])
  ∧ Model.lookup_id oid st1 = None
  ∧ (∀ oid' : string, oid' ≠ oid → Model.lookup_id oid' st1 = Model.lookup_id oid' st)
  ∧ S (length st1) = length st.
Proof.
  intros Huniq Hid Hcast Hfind Hup. cbv zeta.
  rewrite (mongo_delete_known _ _ _ _ _ oid l Hid Hcast Hfind Hup). cbn [fst snd].
  pose proof (lookup_id_elem _ _ _ Hfind) as [_ ->].
  split; [done |]. split; [by apply remove_id_gone |]. split.
  - intros oid' Hne. by apply lookup_id_remove_other.
  - by apply (length_remove_id _ _ l).
Qed.

Lemma two_lists_unique : unique_ids Cases.two_lists.
Proof.
  unfold unique_ids. cbn. apply NoDup_cons. split.
  - intros Hin. by split_elem Hin.
  - apply NoDup_singleton.
Defined.

Lemma delete_removes_exactly_one_witness :
  Model.lookup_id "65f1a2b3c4d5e6f708192a3a"
    (Mongo.delete Samples.isValidObjectId Samples.castObjectId Samples.env
       Cases.two_lists (Cases.by_id "65f1a2b3c4d5e6f708192a3a")).2 = None
  ∧ length (Mongo.delete Samples.isValidObjectId Samples.castObjectId Samples.env
              Cases.two_lists (Cases.by_id "65f1a2b3c4d5e6f708192a3a")).2 = 1%nat.
Proof.
  destruct (delete_removes_exactly_one
              Samples.isValidObjectId Samples.castObjectId Samples.env
              Cases.two_lists (Cases.by_id "65f1a2b3c4d5e6f708192a3a")
              "65f1a2b3c4d5e6f708192a3a" Samples.stored two_lists_unique)
    as (_ & Hgone & _ & Hlen);
    [reflexivity | reflexivity | reflexivity | reflexivity |].
  split; [exact Hgone |]. apply eq_add_S. exact Hlen.
Defined.

(** Once a document is deleted, a get and a second delete of its identifier
    are both answered 404 with the key of their command, and the second
    delete removes nothing. *)
Theorem deleted_document_is_gone
    (isValidObjectId : string -> bool) (castObjectId : string -> option string)
    (env env' : Model.Env) (st : Model.Collection) (req : Mongo.Request)
    (oid : string) (l : Model.ShoppingList) :
  unique_ids st →
  isValidObjectId (Mongo.params_id req) = true →
  castObjectId (Mongo.params_id req) = Some oid →
  Model.lookup_id oid st = Some l →
  Model.healthy env = true →
  Model.healthy env' = true →
  let st1 := (Mongo.delete isValidObjectId castObjectId env st req).2 in
  Mongo.get isValidObjectId castObjectId env' st1 req
  = (Response 404
       {[ "uuAppErrorMap" :=
            VObj {[ "shoppingList/get/notFound" :=
                      Mongo.error_entry "Shopping list not found."
                        {[ "id" := VStr (Mongo.params_id req) ]} ]} ]}, st1)
  ∧ Mongo.delete isValidObjectId castObjectId env' st1 req
    = (Response 404
         {[ "uuAppErrorMap" :=
              VObj {[ "shoppingList/delete/notFound" :=
                        Mongo.error_entry "Shopping list not found."
                          {[ "id" := VStr (Mongo.params_id req) ]} ]} ]}, st1).
Proof.
  intros Huniq Hid Hcast Hfind Hup Hup'. cbv zeta.
  rewrite (mongo_delete_known _ _ _ _ _ oid l Hid Hcast Hfind Hup). cbn [snd].
  pose proof (remove_id_gone oid st Huniq) as Hgone.
  split.
  - unfold Mongo.get, Model.findById. cbv zeta.
    by rewrite Hid, Hup', Hcast, Hgone.
  - by apply (mongo_delete_unknown _ _ _ _ _ oid).
Qed.

Lemma deleted_document_is_gone_witness :
  status (Mongo.get Samples.isValidObjectId Samples.castObjectId Samples.env
            (Mongo.delete Samples.isValidObjectId Samples.castObjectId Samples.env
               Cases.two_lists (Cases.by_id "65f1a2b3c4d5e6f708192a3a")).2
            (Cases.by_id "65f1a2b3c4d5e6f708192a3a")).1 = 404.
Proof.
  destruct (deleted_document_is_gone
              Samples.isValidObjectId Samples.castObjectId Samples.env Samples.env
              Cases.two_lists (Cases.by_id "65f1a2b3c4d5e6f708192a3a")
              "65f1a2b3c4d5e6f708192a3a" Samples.stored two_lists_unique)
    as [Hget _];
    [reflexivity | reflexivity | reflexivity | reflexivity | reflexivity |].
  by rewrite Hget.
Defined.

(** ** Create, continued *)

(** A create with a valid name has two outcomes only. It answers 201
    exactly when the store responds and the generated identifier is not
    taken; the document it builds always passes the schema. Otherwise it
    answers 500 with the single key ["shoppingList/create/failed"] and the
    collection is unchanged. *)
Theorem create_succeeds_or_fails_cleanly
    (env : Model.Env) (st : Model.Collection) (req : Mongo.Request) (s : string) :
  prop (Mongo.req_body req) "name" = VStr s →
  trim s ≠ "" →
  (status (Mongo.create env st req).1 = 201
   ↔ Model.healthy env = true ∧ Model.lookup_id (Model.newObjectId env) st = None)
  ∧ (status (Mongo.create env st req).1 ≠ 201 →
     Mongo.create env st req
     = (Response 500
          {[ "uuAppErrorMap" :=
               VObj {[ "shoppingList/create/failed" :=
                         VObj (list_to_map
                                 [("type", VStr "error");
                                  ("message",
                                    VStr "Unexpected error while creating shopping list.")]) ]} ]},
        st)).
Proof.
  intros Hname Hs.
  destruct (Model.healthy env) eqn:Hup;
    [destruct (Model.lookup_id (Model.newObjectId env) st) as [l |] eqn:Hfresh |].
  - assert (Mongo.create env st req
            = (Response 500
                 (Mongo.buildResponse ∅
                    (Some (Mongo.failed "shoppingList/create/failed"
                             "Unexpected error while creating shopping list."))), st))
      as ->.
    { unfold Mongo.create, Model.create. cbv zeta.
      rewrite required_name_test_spec, Hname, (spec_name_required_string s Hs).
      cbn [negb]. rewrite Hup, Hfresh.
      rewrite bool_decide_eq_true_2 by done. by rewrite andb_false_r. }
    split; [split; [done | by intros [_ ?]] | done].
  - rewrite (mongo_create_valid env st req s Hname Hs Hup Hfresh).
    split; [done |]. by intros Hne.
  - assert (Mongo.create env st req
            = (Response 500
                 (Mongo.buildResponse ∅
                    (Some (Mongo.failed "shoppingList/create/failed"
                             "Unexpected error while creating shopping list."))), st))
      as ->.
    { unfold Mongo.create, Model.create. cbv zeta.
      rewrite required_name_test_spec, Hname, (spec_name_required_string s Hs).
      cbn [negb]. by rewrite Hup. }
    split; [split; [done | by intros [? _]] | done].
Qed.

Lemma create_succeeds_or_fails_cleanly_witness :
  status (Mongo.create Cases.down Samples.collection Samples.post_groceries).1 ≠ 201
  ∧ (Mongo.create Cases.down Samples.collection Samples.post_groceries).2
    = Samples.collection.
Proof.
  destruct (create_succeeds_or_fails_cleanly Cases.down Samples.collection
              Samples.post_groceries " Saturday Groceries ")
    as [Hiff Hfail]; [reflexivity | by vm_compute |].
  assert (status (Mongo.create Cases.down Samples.collection Samples.post_groceries).1
          ≠ 201) as Hne.
  { intros H201. apply Hiff in H201 as [Hup _]. discriminate Hup. }
  split; [exact Hne |]. by rewrite (Hfail Hne).
Defined.

(** A successful create appends one document and leaves the others as they
    were: whatever could be found before is found unchanged afterwards, and
    the new document is found under the returned identifier. *)
Theorem create_keeps_existing_documents
    (env : Model.Env) (st : Model.Collection) (req : Mongo.Request) (s : string) :
  prop (Mongo.req_body req) "name" = VStr s →
  trim s ≠ "" →
  Model.healthy env = true →
  Model.lookup_id (Model.newObjectId env) st = None →
  let st1 := (Mongo.create env st req).2 in
  length st1 = S (length st)
  ∧ (∀ (oid : string) (l : Model.ShoppingList),
       Model.lookup_id oid st = Some l → Model.lookup_id oid st1 = Some l)
  ∧ (∀ oid : string, oid ≠ Model.newObjectId env →
       Model.lookup_id oid st1 = Model.lookup_id oid st)
  ∧ Model.lookup_id (Model.newObjectId env) st1
    = Some (created (Model.newObjectId env) (trim s)).
Proof.
  intros Hname Hs Hup Hfresh. cbv zeta.
  rewrite (mongo_create_valid env st req s Hname Hs Hup Hfresh). cbn [snd].
  split; [rewrite length_app; cbn; lia |]. split; [| split].
  - intros oid l Hfind. by rewrite lookup_id_app, Hfind.
  - intros oid Hne. rewrite lookup_id_app.
    destruct (Model.lookup_id oid st); [done |]. cbn [created Model._id].
    by destruct (String.eqb_spec (Model.newObjectId env) oid) as [<- | _].
  - by apply lookup_id_app_new.
Qed.

Lemma create_keeps_existing_documents_witness :
  Model.lookup_id "65f1a2b3c4d5e6f708192a3a"
    (Mongo.create Samples.env Samples.collection Samples.post_groceries).2
  = Some Samples.stored.
Proof.
  destruct (create_keeps_existing_documents Samples.env Samples.collection
              Samples.post_groceries " Saturday Groceries ")
    as (_ & Hkeep & _); [reflexivity | by vm_compute | reflexivity | reflexivity |].
  by apply Hkeep.
Defined.

(** ** List *)

(** The list command answers, when the store responds, with one entry per
    stored document, in the order of the collection; the entry of a
    document carries its identifier, name, state and owner, and an
    [itemCount] equal to the length of its item array. The collection is
    not changed. An empty collection gives an empty [itemList]. *)
Theorem list_reports_item_counts
    (env : Model.Env) (st : Model.Collection) (req : Mongo.Request) :
  Model.healthy env = true →
  ∃ entries : list value,
    Mongo.list env st req
    = (Response 200
         (list_to_map [("itemList", VArr entries); ("uuAppErrorMap", VObj ∅)]), st)
    ∧ length entries = length st
    ∧ (st = [] → entries = [])
    ∧ ∀ (i : nat) (l : Model.ShoppingList),
        st !! i = Some l →
        entries !! i
        = Some (VObj (list_to_map
                        [("id", VStr (Model._id l));
                         ("name", VStr (Model.name l));
                         ("state", VStr (Model.state l));
                         ("ownerUuIdentity", VStr (Model.ownerUuIdentity l));
                         ("itemCount",
                           num_of_Z (Z.of_nat (length (Model.items l))))])).
Proof.
  intros Hup. unfold Mongo.list, Model.find. rewrite Hup. cbv zeta.
  eexists. split; [reflexivity |]. split; [by rewrite length_fmap |].
  split; [by intros -> |].
  intros i l Hi. by rewrite list_lookup_fmap, Hi.
Qed.

Lemma list_reports_item_counts_witness :
  ∃ entries : list value,
    body (Mongo.list Samples.env Cases.two_lists Cases.post_nothing).1 !! "itemList"
    = Some (VArr entries)
    ∧ length entries = 2%nat
    ∧ entries !! 0%nat
      = Some (VObj (list_to_map
                      [("id", VStr "65f1a2b3c4d5e6f708192a3a");
                       ("name", VStr "Old name");
                       ("state", VStr "active");
                       ("ownerUuIdentity", VStr "uu5:1234-5678");
                       ("itemCount", num_of_Z 1)])).
Proof.
  destruct (list_reports_item_counts Samples.env Cases.two_lists Cases.post_nothing
              eq_refl) as (entries & Hresp & Hlen & _ & Hentry).
  exists entries. rewrite Hresp. split; [reflexivity |]. split; [exact Hlen |].
  exact (Hentry 0%nat Samples.stored eq_refl).
Defined.

(** ** Order of validation and store access *)

(** get, update and delete check the identifier before they touch the
    store: an ill-formed identifier is answered 400 with the key
    ["shoppingList/<command>/invalidId"], the answer is the same whatever
    the collection holds and whether or not the store responds, and the
    collection is unchanged. *)
Theorem ill_formed_id_never_reaches_store
    (isValidObjectId : string -> bool) (castObjectId : string -> option string)
    (c : Mongo.command) (env env' : Model.Env) (st st' : Model.Collection)
    (req : Mongo.Request) :
  takes_id c = true →
  isValidObjectId (Mongo.params_id req) = false →
  status (Mongo.handle isValidObjectId castObjectId c env st req).1 = 400
  ∧ (Mongo.handle isValidObjectId castObjectId c env st req).2 = st
  ∧ (∃ em : obj,
        body (Mongo.handle isValidObjectId castObjectId c env st req).1
          !! "uuAppErrorMap" = Some (VObj em)
        ∧ is_Some (em !! ("shoppingList/" +:+ mongo_command_name c +:+ "/invalidId")))
  ∧ (Mongo.handle isValidObjectId castObjectId c env' st' req).1
    = (Mongo.handle isValidObjectId castObjectId c env st req).1.
Proof.
  intros Htakes Hid. destruct c; try discriminate Htakes; cbn [Mongo.handle].
  - unfold Mongo.get. cbv zeta. rewrite Hid. cbn [negb fst snd status body].
    repeat split. eexists. split; [reflexivity |]. by eexists.
  - pose proof (mongo_update_checks_keys isValidObjectId (Mongo.params_id req)
                  (prop (Mongo.req_body req) "name")
                  (prop (Mongo.req_body req) "state")) as (Hkey & _).
    cbv zeta in Hkey. apply Hkey in Hid as Hsome.
    assert (Mongo.update_checks isValidObjectId (Mongo.params_id req)
              (prop (Mongo.req_body req) "name")
              (prop (Mongo.req_body req) "state") ∅ ≠ ∅) as Hne.
    { intros Hem. rewrite Hem, lookup_empty in Hsome. by destruct Hsome. }
    rewrite !(mongo_update_rejects isValidObjectId castObjectId _ _ req Hne).
    cbn [fst snd status body]. repeat split.
    eexists. split; [apply lookup_singleton_eq | exact Hsome].
  - unfold Mongo.delete. cbv zeta. rewrite Hid. cbn [negb fst snd status body].
    repeat split. eexists. split; [reflexivity |]. by eexists.
Qed.

Lemma ill_formed_id_never_reaches_store_witness :
  status (Mongo.handle Samples.isValidObjectId Samples.castObjectId Mongo.Delete
            Cases.down Samples.collection (Cases.by_id "not-an-id")).1 = 400
  ∧ (Mongo.handle Samples.isValidObjectId Samples.castObjectId Mongo.Delete
       Cases.down Samples.collection (Cases.by_id "not-an-id")).2
    = Samples.collection.
Proof.
  destruct (ill_formed_id_never_reaches_store
              Samples.isValidObjectId Samples.castObjectId Mongo.Delete
              Cases.down Samples.env Samples.collection Cases.two_lists
              (Cases.by_id "not-an-id") eq_refl eq_refl)
    as (Hstatus & Hsame & _).
  split; [exact Hstatus | exact Hsame].
Defined.

(** When the store does not respond, a command answers either 400 (its own
    validation) or 500 with the single key
    ["shoppingList/<command>/failed"], whose entry has no parameter map;
    the collection is unchanged. *)
Theorem store_failure_is_reported_as_500
    (isValidObjectId : string -> bool) (castObjectId : string -> option string)
    (c : Mongo.command) (env : Model.Env) (st : Model.Collection)
    (req : Mongo.Request) :
  Model.healthy env = false →
  (Mongo.handle isValidObjectId castObjectId c env st req).2 = st
  ∧ (status (Mongo.handle isValidObjectId castObjectId c env st req).1 = 400
     ∨ ∃ message : string,
         (Mongo.handle isValidObjectId castObjectId c env st req).1
         = Response 500
             {[ "uuAppErrorMap" :=
                  VObj {[ "shoppingList/" +:+ mongo_command_name c +:+ "/failed" :=
                            VObj (list_to_map [("type", VStr "error");
                                               ("message", VStr message)]) ]} ]}).
Proof.
  intros Hdown. destruct c; cbn [Mongo.handle].
  - unfold Mongo.list, Model.find. rewrite Hdown. split; [done |]. right. by eexists.
  - unfold Mongo.get, Model.findById. cbv zeta. rewrite Hdown.
    destruct (isValidObjectId _); cbn [negb fst snd]; split; try done.
    + right. by eexists.
    + by left.
  - unfold Mongo.create, Model.create. cbv zeta. rewrite Hdown. cbn [andb].
    case_match; cbn [fst snd]; split; try done.
    + by left.
    + right. by eexists.
  - unfold Mongo.update, Model.findByIdAndUpdate. cbv zeta. rewrite Hdown.
    case_match; cbn [fst snd]; split; try done.
    + by left.
    + right. by eexists.
  - unfold Mongo.delete, Model.findByIdAndDelete. cbv zeta. rewrite Hdown.
    destruct (isValidObjectId _); cbn [negb fst snd]; split; try done.
    + right. by eexists.
    + by left.
Qed.

Lemma store_failure_is_reported_as_500_witness :
  status (Mongo.handle Samples.isValidObjectId Samples.castObjectId Mongo.Get
            Cases.down Samples.collection
            (Cases.by_id "65f1a2b3c4d5e6f708192a3a")).1 = 500.
Proof.
  destruct (store_failure_is_reported_as_500
              Samples.isValidObjectId Samples.castObjectId Mongo.Get
              Cases.down Samples.collection
              (Cases.by_id "65f1a2b3c4d5e6f708192a3a") eq_refl)
    as [_ [H400 | [message Hresp]]].
  - discriminate H400.
  - by rewrite Hresp.
Defined.

(** ** What the handlers do to the collection *)

Lemma findByIdAndUpdate_none (castObjectId : string -> option string)
    (env : Model.Env) (st st' : Model.Collection) (id : string) (updates : obj) :
  Model.findByIdAndUpdate castObjectId env st id updates = Model.Resolved (None, st') →
  st' = st.
Proof.
  unfold Model.findByIdAndUpdate. repeat case_match; by intros [=].
Qed.

Lemma findByIdAndDelete_none (castObjectId : string -> option string)
    (env : Model.Env) (st st' : Model.Collection) (id : string) :
  Model.findByIdAndDelete castObjectId env st id = Model.Resolved (None, st') →
  st' = st.
Proof.
  unfold Model.findByIdAndDelete. repeat case_match; by intros [=].
Qed.

(** Only a success can change the collection, and only create, update and
    delete can: every answer that is not a 2xx, and every answer of get and
    list, leaves the collection as it was. *)
Theorem failures_and_reads_change_nothing
    (isValidObjectId : string -> bool) (castObjectId : string -> option string)
    (c : Mongo.command) (env : Model.Env) (st : Model.Collection)
    (req : Mongo.Request) :
  is_2xx (status (Mongo.handle isValidObjectId castObjectId c env st req).1) = false
  ∨ c = Mongo.Get ∨ c = Mongo.List →
  (Mongo.handle isValidObjectId castObjectId c env st req).2 = st.
Proof.
  intros Hcase. destruct c; cbn [Mongo.handle] in *.
  - unfold Mongo.list. by case_match.
  - unfold Mongo.get. cbv zeta. by repeat case_match.
  - destruct Hcase as [Hfail | [? | ?]]; try done.
    revert Hfail. unfold Mongo.create. cbv zeta. by repeat case_match.
  - destruct Hcase as [Hfail | [? | ?]]; try done.
    revert Hfail. unfold Mongo.update. cbv zeta.
    repeat case_match; subst; cbn [fst snd status]; try done.
    all: intros _; by eapply findByIdAndUpdate_none.
  - destruct Hcase as [Hfail | [? | ?]]; try done.
    revert Hfail. unfold Mongo.delete. cbv zeta.
    repeat case_match; subst; cbn [fst snd status]; try done.
    all: intros _; by eapply findByIdAndDelete_none.
Qed.

Lemma failures_and_reads_change_nothing_witness :
  (Mongo.handle Samples.isValidObjectId Samples.castObjectId Mongo.Update
     Samples.env Samples.collection Samples.put_deleted).2 = Samples.collection.
Proof.
  apply failures_and_reads_change_nothing. left. reflexivity.
Defined.

Lemma replace_id_Forall (P : Model.ShoppingList → Prop)
    (new : Model.ShoppingList) (st : Model.Collection) :
  P new → Forall P st → Forall P (Model.replace_id new st).
Proof.
  intros Hnew Hst.
  induction Hst as [| l st Hl Hst IH]; cbn [Model.replace_id]; [constructor |].
  destruct (String.eqb (Model._id l) (Model._id new)); by constructor.
Qed.

Lemma remove_id_Forall (P : Model.ShoppingList → Prop)
    (oid : string) (st : Model.Collection) :
  Forall P st → Forall P (Model.remove_id oid st).
Proof.
  intros Hst.
  induction Hst as [| l st Hl Hst IH]; cbn [Model.remove_id]; [constructor |].
  destruct (String.eqb (Model._id l) oid); [done | by constructor].
Qed.

(** The collection after an update: unchanged, or with one document
    replaced by itself with the supplied fields, both accepted. *)
Lemma mongo_update_cases
    (isValidObjectId : string -> bool) (castObjectId : string -> option string)
    (env : Model.Env) (st : Model.Collection) (req : Mongo.Request) :
  (Mongo.update isValidObjectId castObjectId env st req).2 = st
  ∨ ∃ (oid : string) (l : Model.ShoppingList),
      Model.lookup_id oid st = Some l
      ∧ spec_name_optional (prop (Mongo.req_body req) "name") = true
      ∧ spec_state_optional (prop (Mongo.req_body req) "state") = true
      ∧ (Mongo.update isValidObjectId castObjectId env st req).2
        = Model.replace_id
            (Model.apply_updates l (supplied_name (Mongo.req_body req))
               (supplied_state (Mongo.req_body req))) st.
Proof.
  destruct (has_keys (Mongo.update_checks isValidObjectId (Mongo.params_id req)
                        (prop (Mongo.req_body req) "name")
                        (prop (Mongo.req_body req) "state") ∅)) eqn:Hkeys.
  { left. unfold Mongo.update. cbv zeta. by rewrite Hkeys. }
  pose proof (mongo_update_checks_keys isValidObjectId (Mongo.params_id req)
                (prop (Mongo.req_body req) "name")
                (prop (Mongo.req_body req) "state")) as (_ & _ & _ & Hsize).
  cbv zeta in Hsize. apply has_keys_false in Hkeys as Hempty.
  rewrite Hempty, map_size_empty in Hsize.
  destruct (isValidObjectId (Mongo.params_id req)) eqn:Hid; [| discriminate Hsize].
  destruct (spec_name_optional (prop (Mongo.req_body req) "name")) eqn:Hname;
    [| discriminate Hsize].
  destruct (spec_state_optional (prop (Mongo.req_body req) "state")) eqn:Hstate;
    [| discriminate Hsize].
  destruct (Model.healthy env) eqn:Hup;
    [destruct (castObjectId (Mongo.params_id req)) as [oid |] eqn:Hcast |].
  - rewrite (mongo_update_accepted _ _ env st req oid Hid Hcast Hname Hstate Hup).
    destruct (Model.lookup_id oid st) as [l |] eqn:Hfind; [| by left].
    right. by exists oid, l.
  - left. unfold Mongo.update, Model.findByIdAndUpdate. cbv zeta.
    by rewrite Hkeys, Hup, Hcast.
  - left. unfold Mongo.update, Model.findByIdAndUpdate. cbv zeta.
    by rewrite Hkeys, Hup.
Qed.

Lemma trim_value_trimmed (v : value) : trim (trim_value v) = trim_value v.
Proof. destruct v; try done. apply trim_idempotent. Qed.

Lemma apply_updates_well_formed (l : Model.ShoppingList) (b : obj) :
  well_formed l →
  spec_name_optional (prop b "name") = true →
  spec_state_optional (prop b "state") = true →
  well_formed (Model.apply_updates l (supplied_name b) (supplied_state b)).
Proof.
  intros [Hvalid Htrim] Hname Hstate.
  unfold Model.validate in Hvalid.
  apply andb_prop in Hvalid as [Hvalid Hitems].
  apply andb_prop in Hvalid as [Hvalid Hmembers].
  apply andb_prop in Hvalid as [Hvalid Howner].
  apply andb_prop in Hvalid as [Hn Hs].
  unfold well_formed, Model.validate, supplied_name, supplied_state.
  cbn [Model.apply_updates Model.name Model.state Model.ownerUuIdentity
       Model.members Model.items].
  rewrite Howner, Hmembers, Hitems, !andb_true_r.
  destruct (prop b "name") as [| | | | n | |]; try discriminate Hname;
    destruct (prop b "state") as [| | | | s | |]; try discriminate Hstate;
    cbn [from_option id].
  - by rewrite Hn, Hs.
  - rewrite valid_state_spec in Hstate. by rewrite Hn, Hstate.
  - cbn in Hname. unfold Model.valid_name. rewrite Hname, Hs.
    split; [done | apply trim_idempotent].
  - rewrite valid_state_spec in Hstate. cbn in Hname.
    unfold Model.valid_name. rewrite Hname, Hstate.
    split; [done | apply trim_idempotent].
Qed.

(** The invariant of the data model: if every stored document passes the
    schema and has a non-empty name that is its own trimmed form (and so a
    state of the enum), this is still so after any request to any
    command, whatever the store answers. *)
Theorem handlers_keep_documents_well_formed
    (isValidObjectId : string -> bool) (castObjectId : string -> option string)
    (c : Mongo.command) (env : Model.Env) (st : Model.Collection)
    (req : Mongo.Request) :
  all_well_formed st →
  all_well_formed (Mongo.handle isValidObjectId castObjectId c env st req).2.
Proof.
  intros Hst. destruct c; unfold Mongo.handle.
  - unfold Mongo.list. by case_match.
  - unfold Mongo.get. cbv zeta. by repeat case_match.
  - unfold Mongo.create, Model.create. cbv zeta.
    repeat case_match; simplify_eq; cbn [snd]; try done.
    apply Forall_app. split; [done |]. constructor; [| constructor].
    split; cbn [Model.name]; [| apply trim_value_trimmed].
    match goal with
    | H : _ && ?v && _ = true |- ?v = true =>
        apply andb_prop in H as [H _]; by apply andb_prop in H as [_ H]
    end.
  - destruct (mongo_update_cases isValidObjectId castObjectId env st req)
      as [-> | (oid & l & Hfind & Hname & Hstate & ->)]; [done |].
    apply replace_id_Forall; [| done].
    apply apply_updates_well_formed; try done.
    apply lookup_id_elem in Hfind as [Hin _].
    unfold all_well_formed in Hst. rewrite Forall_forall in Hst. by apply Hst.
  - unfold Mongo.delete, Model.findByIdAndDelete. cbv zeta.
    repeat case_match; simplify_eq; cbn [snd]; try done.
    by apply remove_id_Forall.
Qed.

Lemma all_well_formed_two_lists : all_well_formed Cases.two_lists.
Proof. repeat constructor. Defined.

Lemma handlers_keep_documents_well_formed_witness :
  all_well_formed
    (Mongo.handle Samples.isValidObjectId Samples.castObjectId Mongo.Update
       Samples.env Cases.two_lists Cases.put_rename).2.
Proof.
  apply handlers_keep_documents_well_formed. exact all_well_formed_two_lists.
Defined.

Lemma mongo_handle_unique_ids_witness :
  unique_ids
    (Mongo.handle Samples.isValidObjectId Samples.castObjectId Mongo.Create
       Samples.env Cases.two_lists Samples.post_groceries).2.
Proof.
  apply mongo_handle_unique_ids. exact two_lists_unique.
Defined.

(** ** The entries of the error map *)

Ltac error_entry_ok :=
  split; [reflexivity | eexists _, _; split; [reflexivity | split; reflexivity]].

Ltac error_map_ok :=
  unfold error_map_of, Mongo.failed, Mongo.error_entry, Mock.buildError;
  repeat first
    [ apply map_Forall_empty
    | apply map_Forall_singleton; error_entry_ok
    | apply map_Forall_insert_2; [error_entry_ok |] ].

Ltac error_maps_of_handler :=
  cbv zeta; repeat case_match; subst; cbn [fst];
  unfold carries_error_map_of, status_json, json, Mock.buildResponse,
    Mongo.buildResponse;
  cbn [body from_option id];
  (eexists; split; [apply lookup_insert_eq | error_map_ok]).

(** Whatever the request, the error map of a response holds only keys of
    the command that answered, of the form ["shoppingList/<command>/..."],
    and each entry is an object of type ["error"] with a message. This
    holds for every command of either server. *)
Theorem error_keys_belong_to_the_command
    (Number : value -> number) (now : Z)
    (isValidObjectId : string -> bool) (castObjectId : string -> option string) :
  (∀ (c : Mock.command) (req : Mock.Request),
      carries_error_map_of (Mock.command_name c) (Mock.handle Number now c req))
  ∧ (∀ (c : Mongo.command) (env : Model.Env) (st : Model.Collection)
       (req : Mongo.Request),
      carries_error_map_of (mongo_command_name c)
        (Mongo.handle isValidObjectId castObjectId c env st req).1).
Proof.
  split.
  - intros c req. destruct c; cbn [Mock.handle Mock.command_name].
    + unfold Mock.create. error_maps_of_handler.
    + unfold Mock.get. error_maps_of_handler.
    + unfold Mock.list. error_maps_of_handler.
    + unfold Mock.update, Mock.update_checks. error_maps_of_handler.
    + unfold Mock.delete. error_maps_of_handler.
    + unfold Mock.addMember. error_maps_of_handler.
    + unfold Mock.removeMember. error_maps_of_handler.
    + unfold Mock.leave. error_maps_of_handler.
  - intros c env st req. destruct c; cbn [Mongo.handle mongo_command_name].
    + unfold Mongo.list. error_maps_of_handler.
    + unfold Mongo.get. error_maps_of_handler.
    + unfold Mongo.create. error_maps_of_handler.
    + unfold Mongo.update, Mongo.update_checks. error_maps_of_handler.
    + unfold Mongo.delete. error_maps_of_handler.
Qed.
